(** * er_correct: retraction metadata pipeline

    A shallow embedding of [src/retractions/get_retraction_metadata.py]
    and the properties of its date normalisation, citation counting,
    robust CSV reading, citation fetching and row cleaning.

    Python code that can raise is embedded in the [result] monad; code
    that prints, logs or talks to the outside world is embedded in the
    [IO] monad, which threads the trace of such events.  The third-party
    functions the script calls ([pd.to_datetime], [pd.read_csv],
    [chardet.detect], [requests.get]) are parameters of the definitions
    that call them. *)

From Stdlib Require Import ZArith Ascii String Bool Lia.
From stdpp Require Import gmap strings list fin_maps pretty.

Local Open Scope string_scope.
Local Open Scope list_scope.
Local Open Scope Z_scope.

(** ** Python values, exceptions and results *)

(** The exception classes the script can meet.  An exception is modelled
    by its class alone, without the message it carries; in the texts the
    script prints and logs, [str_exn], the name of the class, stands at
    the place of [str(e)], the message. *)
Inductive exn : Type :=
  | KeyError
  | AttributeError
  | TypeError
  | ValueError
  | DateParseError
  | OSError
  | UnicodeDecodeError
  | ParserError
  | ConnectionError
  | JSONDecodeError
  | OutOfBoundsDatetime
  | OverflowError.

Definition str_exn (e : exn) : string :=
  match e with
  | KeyError => "KeyError"
  | AttributeError => "AttributeError"
  | TypeError => "TypeError"
  | ValueError => "ValueError"
  | DateParseError => "DateParseError"
  | OSError => "OSError"
  | UnicodeDecodeError => "UnicodeDecodeError"
  | ParserError => "ParserError"
  | ConnectionError => "ConnectionError"
  | JSONDecodeError => "JSONDecodeError"
  | OutOfBoundsDatetime => "OutOfBoundsDatetime"
  | OverflowError => "OverflowError"
  end.

(** The outcome of evaluating a Python expression: a value, or a raised
    exception. *)
Inductive result (A : Type) : Type :=
  | Ok (a : A)
  | Raise (e : exn).
Arguments Ok {A} a.
Arguments Raise {A} e.

#[global] Instance result_ret : MRet result := fun A a => Ok a.
#[global] Instance result_bind : MBind result := fun A B f m =>
  match m with
  | Ok a => f a
  | Raise e => Raise e
  end.

(** What a call returned, forgetting which exception was raised. *)
Definition returned {A} (r : result A) : option A :=
  match r with
  | Ok a => Some a
  | Raise _ => None
  end.

(** A calendar date, [datetime.date]: Python orders dates by year, then
    month, then day. *)
Record date : Type := Date { year : Z; month : Z; day : Z }.

Definition date_ltb (a b : date) : bool :=
  (year a <? year b)
  || ((year a =? year b)
      && ((month a <? month b)
          || ((month a =? month b) && (day a <? day b)))).

Definition date_eqb (a b : date) : bool :=
  (year a =? year b) && (month a =? month b) && (day a =? day b).

(** [a >= b] on dates is [not (a < b)]. *)
Definition date_geb (a b : date) : bool := negb (date_ltb a b).

(** The scalar values that reach the functions below: [None], the float
    [nan], pandas' [NaT], integers, strings and [datetime.date] objects. *)
Inductive pyval : Type :=
  | PyNone
  | PyNaN
  | PyNaT
  | PyInt (z : Z)
  | PyStr (s : string)
  | PyDate (d : date).

(** [pd.isna] on a scalar. *)
Definition pd_isna (v : pyval) : bool :=
  match v with
  | PyNone | PyNaN | PyNaT => true
  | PyInt _ | PyStr _ | PyDate _ => false
  end.

(** A JSON object / Python [dict] with string keys, and [d[key]]. *)
Abbreviation pydict := (gmap string pyval).

Definition getitem (d : pydict) (key : string) : result pyval :=
  match d !! key with
  | Some v => Ok v
  | None => Raise KeyError
  end.

(** ** Strings *)

(** [s.split(sep)] for a one-character separator: the pieces between the
    occurrences of [sep], empty pieces included. *)
Fixpoint str_split (sep : ascii) (s : string) : list string :=
  match s with
  | EmptyString => [EmptyString]
  | String c rest =>
      if Ascii.eqb c sep then EmptyString :: str_split sep rest
      else match str_split sep rest with
           | piece :: pieces => String c piece :: pieces
           | [] => [String c EmptyString]
           end
  end.

(** The number of occurrences of a character in a string. *)
Fixpoint str_count (sep : ascii) (s : string) : nat :=
  match s with
  | EmptyString => O
  | String c rest =>
      if Ascii.eqb c sep then S (str_count sep rest) else str_count sep rest
  end.

Definition hyphen : ascii := "-"%char.

(** ** standardize_date (lines 32-42)

    The function returns either [np.nan] or a string; the embedding
    returns [None] for [np.nan], the marker of an unknown date.
    [date_str.split] exists on strings only: on any other value that is
    not missing the attribute lookup raises. *)
Definition standardize_date (date_str : pyval) : result (option string) :=
  if pd_isna date_str then Ok None
  else
    match date_str with
    | PyStr s =>
        let parts := str_split hyphen s in
        if (length parts =? 1)%nat then Ok None
        else if (length parts =? 2)%nat then Ok (Some (s +:+ "-01"))
        else if (length parts =? 3)%nat then Ok (Some s)
        else Ok None
    | _ => Raise AttributeError
    end.

(** ** Dates and timestamps *)

(** Leap years and month lengths of the proleptic Gregorian calendar, as
    [datetime] has them. *)
Definition is_leap (y : Z) : bool :=
  (y mod 4 =? 0) && (negb (y mod 100 =? 0) || (y mod 400 =? 0)).

Definition days_in_month (y m : Z) : Z :=
  if m =? 2 then (if is_leap y then 29 else 28)
  else if (m =? 4) || (m =? 6) || (m =? 9) || (m =? 11) then 30
  else 31.

(** [datetime.date(y, m, d)]: the constructor rejects fields out of
    range. *)
Definition make_date (y m d : Z) : result date :=
  if (1 <=? y) && (y <=? 9999) && (1 <=? m) && (m <=? 12)
     && (1 <=? d) && (d <=? days_in_month y m)
  then Ok (Date y m d)
  else Raise ValueError.

(** [date.toordinal()]: days since 0001-01-01, that day being 1. *)
Definition days_before_year (y : Z) : Z :=
  let p := y - 1 in p * 365 + p / 4 - p / 100 + p / 400.

Fixpoint days_before_month_from (y : Z) (m : nat) : Z :=
  match m with
  | O => 0
  | S k => days_before_month_from y k + days_in_month y (Z.of_nat (S k))
  end.

Definition toordinal (d : date) : Z :=
  days_before_year (year d)
  + days_before_month_from (year d) (Z.to_nat (month d - 1))
  + day d.

(** A pandas [Timestamp], given by the calendar fields of its instant
    (date, and nanoseconds since midnight) and by whether it carries a
    timezone; [NaT] is the missing timestamp.  pandas stores the instant
    as a 64-bit count of nanoseconds since 1970-01-01, [ts_value], and
    compares these counts, which order as the fields do. *)
Inductive Timestamp : Type :=
  | Ts (d : date) (nanos : Z) (tz_aware : bool)
  | NaT.

(** [a < b] and [a > b] on timestamps: every comparison with [NaT] is
    false, and a timezone-aware timestamp cannot be compared with a naive
    one. *)
Definition ts_lt (a b : Timestamp) : result bool :=
  match a, b with
  | NaT, _ | _, NaT => Ok false
  | Ts da na tza, Ts db nb tzb =>
      if Bool.eqb tza tzb
      then Ok (date_ltb da db || (date_eqb da db && (na <? nb)))
      else Raise TypeError
  end.

Definition ts_gt (a b : Timestamp) : result bool := ts_lt b a.

(** A date argument as the callers pass it: a [datetime.date], or a
    [datetime.datetime] (a date with a time of day). *)
Inductive pydate : Type :=
  | PDate (d : date)
  | PDatetime (d : date) (nanos : Z).

(** The nanosecond count of an instant.  The counts a timestamp can
    hold run from [- int64_max] to [int64_max], that is from
    1677-09-21 00:12:43.145224193 to 2262-04-11 23:47:16.854775807; the
    64-bit value below them is [NaT]. *)
Definition epoch_ordinal : Z := 719163.
Definition ns_per_day : Z := 86400000000000.
Definition int64_max : Z := 9223372036854775807.

Definition ts_value (d : date) (nanos : Z) : Z :=
  (toordinal d - epoch_ordinal) * ns_per_day + nanos.

Definition in_timestamp_range (d : date) (nanos : Z) : bool :=
  (- int64_max <=? ts_value d nanos) && (ts_value d nanos <=? int64_max).

(** [pd.to_datetime] on a date or datetime object: the timestamp of the
    same fields, midnight for a date; outside the range of timestamps it
    raises. *)
Definition to_datetime_obj (t : pydate) : result Timestamp :=
  match t with
  | PDate d =>
      if in_timestamp_range d 0 then Ok (Ts d 0 false)
      else Raise OutOfBoundsDatetime
  | PDatetime d n =>
      if in_timestamp_range d n then Ok (Ts d n false)
      else Raise OutOfBoundsDatetime
  end.

(** The target dates that [pd.to_datetime] turns into a timestamp. *)
Definition representable (t : pydate) : bool :=
  match to_datetime_obj t with
  | Ok _ => true
  | Raise _ => false
  end.

(** The day of a target, and whether its time of day is midnight. *)
Definition target_day (t : pydate) : date :=
  match t with
  | PDate d => d
  | PDatetime d _ => d
  end.

Definition at_midnight (t : pydate) : bool :=
  match t with
  | PDate _ => true
  | PDatetime _ n => n =? 0
  end.

(** ** datetime.strptime(s, '%Y-%m-%d')

    [_strptime] turns the format into the regular expression
    [(\d\d\d\d)-(1[0-2]|0[1-9]|[1-9])-(3[0-1]|[1-2]\d|0[1-9]|[1-9]| [1-9])],
    takes its first match at the start of the string (alternatives tried
    left to right, with backtracking), rejects the string when input
    remains after the match, and builds the date.  Each piece below
    returns its matches in the order the regular expression engine tries
    them, as pairs of the number read and the input left.  Strings are
    sequences of ASCII characters. *)
Definition char_between (lo hi c : ascii) : bool :=
  (nat_of_ascii lo <=? nat_of_ascii c)%nat
  && (nat_of_ascii c <=? nat_of_ascii hi)%nat.

Definition digit_value (c : ascii) : Z := Z.of_nat (nat_of_ascii c) - 48.

Definition re_class (lo hi : ascii) (l : list ascii) : list (Z * list ascii) :=
  match l with
  | c :: rest => if char_between lo hi c then [(digit_value c, rest)] else []
  | [] => []
  end.

Definition re_lit (c : ascii) (l : list ascii) : list (list ascii) :=
  match l with
  | c' :: rest => if Ascii.eqb c' c then [rest] else []
  | [] => []
  end.

Definition re_digit : list ascii → list (Z * list ascii) := re_class "0" "9".

Definition re_Y (l : list ascii) : list (Z * list ascii) :=
  '(a, l1) ← re_digit l;
  '(b, l2) ← re_digit l1;
  '(c, l3) ← re_digit l2;
  '(d, l4) ← re_digit l3;
  [(1000 * a + 100 * b + 10 * c + d, l4)].

Definition re_m (l : list ascii) : list (Z * list ascii) :=
  (l1 ← re_lit "1" l; '(b, l2) ← re_class "0" "2" l1; [(10 + b, l2)])
  ++ (l1 ← re_lit "0" l; re_class "1" "9" l1)
  ++ re_class "1" "9" l.

Definition re_d (l : list ascii) : list (Z * list ascii) :=
  (l1 ← re_lit "3" l; '(b, l2) ← re_class "0" "1" l1; [(30 + b, l2)])
  ++ ('(a, l1) ← re_class "1" "2" l; '(b, l2) ← re_digit l1; [(10 * a + b, l2)])
  ++ (l1 ← re_lit "0" l; re_class "1" "9" l1)
  ++ re_class "1" "9" l
  ++ (l1 ← re_lit " " l; re_class "1" "9" l1).

Definition re_Ymd (l : list ascii) : list (Z * Z * Z * list ascii) :=
  '(y, l1) ← re_Y l;
  l2 ← re_lit hyphen l1;
  '(m, l3) ← re_m l2;
  l4 ← re_lit hyphen l3;
  '(d, l5) ← re_d l4;
  [(y, m, d, l5)].

Definition strptime_Ymd (s : string) : result date :=
  match head (re_Ymd (list_ascii_of_string s)) with
  | None => Raise ValueError
  | Some (y, m, d, []) => make_date y m d
  | Some (_, _, _, _ :: _) => Raise ValueError
  end.

(** [datetime.strptime(v, '%Y-%m-%d').date()]: the first argument must be
    a string. *)
Definition strptime_date (v : pyval) : result date :=
  match v with
  | PyStr s => strptime_Ymd s
  | _ => Raise TypeError
  end.

(** ** Effects: the trace of prints, log lines and outside calls *)

Inductive event : Type :=
  | Print (text : string)
  | LogInfo (text : string)
  | HttpGet (url : string)
  | Detect (file_path : string) (num_bytes : Z)
  | ReadCsv (file_path : string) (encoding : option string) (sep : string).

(** A computation that extends the trace and returns or raises.  What
    was printed before an exception stays printed. *)
Definition IO (A : Type) : Type := list event → result A * list event.

#[global] Instance IO_ret : MRet IO := fun A a tr => (Ok a, tr).
#[global] Instance IO_bind : MBind IO := fun A B f m tr =>
  match m tr with
  | (Ok a, tr') => f a tr'
  | (Raise e, tr') => (Raise e, tr')
  end.

Definition emit (ev : event) : IO unit := fun tr => (Ok tt, tr ++ [ev]).

(** An outside call: it is recorded, and returns what the outside world
    answers. *)
Definition call {A} (ev : event) (answer : result A) : IO A :=
  fun tr => (answer, tr ++ [ev]).

Definition lift {A} (r : result A) : IO A := fun tr => (r, tr).

(** [try: body  except Exception as e: handler e]. *)
Definition try_except {A} (body : IO A) (handler : exn → IO A) : IO A :=
  fun tr =>
    match body tr with
    | (Ok a, tr') => (Ok a, tr')
    | (Raise e, tr') => handler e tr'
    end.

Definition run {A} (m : IO A) : result A * list event := m [].

(** ** count_citations (lines 45-60) *)

Record counts : Type := Counts { before : nat; after : nat }.

Section CountCitations.
(** [pd.to_datetime] on a string: a timestamp, or an exception when
    pandas cannot read the string as a date. *)
Variable to_datetime : string → result Timestamp.

(** The [for] loop, with the two counters as accumulators. *)
Fixpoint count_loop (target_date : Timestamp) (citations : list pydict)
    (before_count after_count : nat) : result counts :=
  match citations with
  | [] => Ok {| before := before_count; after := after_count |}
  | citation :: rest =>
      v ← getitem citation "creation";
      creation_date ← standardize_date v;
      match creation_date with
      | None => count_loop target_date rest before_count after_count
      | Some s =>
          creation_date ← to_datetime s;
          lt ← ts_lt creation_date target_date;
          if lt : bool
          then count_loop target_date rest (S before_count) after_count
          else
            gt ← ts_gt creation_date target_date;
            if gt : bool
            then count_loop target_date rest before_count (S after_count)
            else count_loop target_date rest before_count after_count
      end
  end.

Definition count_citations (citations : list pydict) (target_date : pydate)
    : result counts :=
  let before_count := O in
  let after_count := O in
  target_date ← to_datetime_obj target_date;
  count_loop target_date citations before_count after_count.

(** The timestamp of an entry's creation date, when the entry has a
    creation value whose normalised date is known and pandas reads it. *)
Definition creation_timestamp (citation : pydict) : option Timestamp :=
  v ← citation !! "creation";
  s ← default None (returned (standardize_date v));
  returned (to_datetime s).

Definition strictly_earlier (target_date : pydate) (citation : pydict) : bool :=
  match creation_timestamp citation, to_datetime_obj target_date with
  | Some ts, Ok target =>
      match ts_lt ts target with
      | Ok b => b
      | Raise _ => false
      end
  | _, _ => false
  end.

Definition strictly_later (target_date : pydate) (citation : pydict) : bool :=
  match creation_timestamp citation, to_datetime_obj target_date with
  | Some ts, Ok target =>
      match ts_gt ts target with
      | Ok b => b
      | Raise _ => false
      end
  | _, _ => false
  end.

(** A timestamp that can be compared with the target date: one without
    timezone, or [NaT]. *)
Definition is_naive (ts : Timestamp) : bool :=
  match ts with
  | Ts _ _ tz_aware => negb tz_aware
  | NaT => true
  end.

(** The entries the loop gets through: the entry has a [creation]
    value, [standardize_date] accepts it, and when the normalised date
    is known pandas reads it as a timestamp without a timezone (or as
    [NaT]). *)
Definition countable (citation : pydict) : bool :=
  match citation !! "creation" with
  | None => false
  | Some v =>
      match standardize_date v with
      | Raise _ => false
      | Ok None => true
      | Ok (Some s) =>
          match to_datetime s with
          | Ok ts => is_naive ts
          | Raise _ => false
          end
      end
  end.

(** An entry whose normalised creation date is unknown. *)
Definition unknown_date (citation : pydict) : Prop :=
  ∃ v, citation !! "creation" = Some v ∧ standardize_date v = Ok None.

(** An entry created at the very instant of the target date. *)
Definition same_instant (target_date : pydate) (citation : pydict) : Prop :=
  ∃ d n tz, creation_timestamp citation = Some (Ts d n tz)
            ∧ to_datetime_obj target_date = Ok (Ts d n tz).
End CountCitations.

(** A reader of date strings for the examples, in the place of
    [pd.to_datetime]: it reads exactly the dates ['%Y-%m-%d'] reads, as
    midnight of that day when that is in the range of timestamps, and
    raises on every other string. *)
Definition iso_to_datetime (s : string) : result Timestamp :=
  match strptime_Ymd s with
  | Ok d => to_datetime_obj (PDate d)
  | Raise _ => Raise DateParseError
  end.

(** ** process_citation_counts (lines 80-99) *)

(** A NumPy number as the function returns it: an integer count, or
    [np.NaN] (the NumPy 1.x name of [np.nan]). *)
Inductive npnum : Type :=
  | NpInt (n : nat)
  | NpNaN.

(** [np.sum(mask)] for a comparison mask over an array. *)
Definition np_sum_where {A} (mask : A → bool) (a : list A) : nat :=
  length (List.filter mask a).

Definition process_citation_counts (citations : list pydict)
    (retraction_date : pydate) : IO (npnum * npnum) :=
  try_except
    (let retraction_date :=
       match retraction_date with
       | PDatetime d _ => d
       | PDate d => d
       end in
     creation_dates ← lift (mapM (fun citation =>
                                    v ← getitem citation "creation";
                                    strptime_date v) citations);
     let pre_counts :=
       np_sum_where (fun d => date_ltb d retraction_date) creation_dates in
     let post_counts :=
       np_sum_where (fun d => date_geb d retraction_date) creation_dates in
     mret (NpInt pre_counts, NpInt post_counts))
    (fun e =>
       _ ← emit (Print ("ERROR: " +:+ str_exn e));
       mret (NpNaN, NpNaN)).

(** The date ['%Y-%m-%d'] reads from an entry's creation string. *)
Definition creation_full_date (citation : pydict) : option date :=
  v ← citation !! "creation";
  returned (strptime_date v).

Definition created_on (d : date) (citation : pydict) : bool :=
  match creation_full_date citation with
  | Some d' => date_eqb d' d
  | None => false
  end.

(** An entry whose creation value is not a string that ['%Y-%m-%d']
    reads, or that has no creation value. *)
Definition not_full_date (citation : pydict) : bool :=
  match creation_full_date citation with
  | Some _ => false
  | None => true
  end.

(** A timestamp reading a string as midnight of the day [d], without
    timezone. *)
Definition reads_as_midnight (d : date) (r : result Timestamp) : bool :=
  match r with
  | Ok (Ts d' nanos tz_aware) =>
      date_eqb d' d && (nanos =? 0) && negb tz_aware
  | _ => false
  end.

(** An entry whose creation string is a well-formed full date: a string
    that ['%Y-%m-%d'] reads as a day, and that [pd.to_datetime] reads as
    the same day. *)
Definition full_date_entry (to_datetime : string → result Timestamp)
    (citation : pydict) : bool :=
  match citation !! "creation" with
  | Some (PyStr s) =>
      match strptime_Ymd s with
      | Ok d => reads_as_midnight d (to_datetime s)
      | Raise _ => false
      end
  | _ => false
  end.

(** ** fetch_citations (lines 63-77) *)

(** An HTTP response: its status, and what [response.json()] gives. *)
Record response : Type :=
  Response { status_code : Z; json : result (list pydict) }.

(** The URL and the headers of the request. *)
Definition citations_url (doi : string) : string :=
  "https://opencitations.net/index/api/v2/citations/doi:" +:+ doi.

Definition accept_json : list (string * string) :=
  [("Accept", "application/json")].

Section FetchCitations.
(** [requests.get(url, headers=...)]: a response, or a transport
    error. *)
Variable requests_get : string → list (string * string) → result response.

Definition fetch_citations (doi : string) : IO (list pydict) :=
  let url := citations_url doi in
  let headers := accept_json in
  try_except
    (response ← call (HttpGet url) (requests_get url headers);
     if status_code response =? 200
     then
       _ ← emit (LogInfo ("Successfully fetched citations for DOI " +:+ doi));
       lift (json response)
     else mret [])
    (fun e =>
       _ ← emit (LogInfo ("Exception when fetching citations for DOI "
                          +:+ doi +:+ ": " +:+ str_exn e));
       mret []).
End FetchCitations.

(** ** read_csv_robust (lines 102-138) *)

(** How an f-string shows an encoding name that may be [None]. *)
Definition str_encoding (encoding : option string) : string :=
  default "None" encoding.

Section ReadCsvRobust.
Variable table : Type.
(** Reading the first bytes of the file and [chardet.detect] on them:
    the detected encoding ([None] when chardet has no guess), or an
    exception when the file cannot be opened. *)
Variable sample_and_detect : string → Z → result (option string).
(** [pd.read_csv(file_path, encoding=..., on_bad_lines='skip', sep=...)]. *)
Variable pd_read_csv : string → option string → string → result table.

Definition detect_encoding (file_path : string) (num_bytes : Z)
    : IO (option string) :=
  call (Detect file_path num_bytes) (sample_and_detect file_path num_bytes).

Definition read_csv (file_path : string) (encoding : option string)
    (sep : string) : IO table :=
  call (ReadCsv file_path encoding sep) (pd_read_csv file_path encoding sep).

Definition read_csv_robust (file_path sep : string) (num_bytes : Z)
    : IO (option table) :=
  encoding_detected ← detect_encoding file_path num_bytes;
  try_except
    (df ← read_csv file_path encoding_detected sep;
     _ ← emit (Print ("File read successfully with encoding: "
                      +:+ str_encoding encoding_detected));
     mret (Some df))
    (fun e =>
       _ ← emit (Print ("Failed to read with detected encoding "
                        +:+ str_encoding encoding_detected
                        +:+ ". Error: " +:+ str_exn e));
       try_except
         (_ ← emit (Print "Attempting to read with UTF-8...");
          df ← read_csv file_path (Some "utf-8") sep;
          _ ← emit (Print "File read successfully with UTF-8.");
          mret (Some df))
         (fun e =>
            _ ← emit (Print ("Failed to read with UTF-8. Error: "
                             +:+ str_exn e));
            try_except
              (_ ← emit (Print "Attempting to read with ISO-8859-1...");
               df ← read_csv file_path (Some "ISO-8859-1") sep;
               _ ← emit (Print "File read successfully with ISO-8859-1.");
               mret (Some df))
              (fun e =>
                 _ ← emit (Print ("Failed to read with ISO-8859-1. Error: "
                                  +:+ str_exn e));
                 _ ← emit (Print "All attempts failed. Please check the file for issues beyond encoding.");
                 mret None))).
End ReadCsvRobust.

(** The encodings of the parse attempts recorded in a trace, in order. *)
Definition attempts (tr : list event) : list (option string) :=
  omap (fun ev => match ev with
                  | ReadCsv _ encoding _ => Some encoding
                  | _ => None
                  end) tr.

(** ** main: the cleaning stage (lines 155-162) *)

(** A row of the input table, by the three columns the stage reads. *)
Record input_row : Type :=
  InputRow { OriginalPaperDate : pyval;
             RetractionDate : pyval;
             OriginalPaperDOI : pyval }.

(** A row with the three columns the stage adds; [None] is [NaT] in the
    date columns and [NaN] in [correction_time]. *)
Record row : Type :=
  Row { input : input_row;
        original : option date;
        retract : option date;
        correction_time : option Z }.

(** [.dt.date] on one timestamp. *)
Definition dt_date (ts : Timestamp) : option date :=
  match ts with
  | Ts d _ _ => Some d
  | NaT => None
  end.

(** [pd.to_datetime] on one cell of a column of dates: [NaT] stays
    [NaT], and a date whose midnight no timestamp holds raises. *)
Definition to_datetime_cell (d : option date) : result Timestamp :=
  match d with
  | Some d => to_datetime_obj (PDate d)
  | None => Ok NaT
  end.

(** One cell of the difference of two timestamp columns, and its
    [.dt.days].  The nanosecond counts are subtracted in 64 bits and the
    subtraction is checked for overflow; a cell with [NaT] on either
    side is [NaT], whose [days] is [NaN], and so is the 64-bit value
    that stands for [NaT]. *)
Definition timedelta_days (retract original : Timestamp) : result (option Z) :=
  match retract, original with
  | Ts dr nr tzr, Ts do no tzo =>
      if Bool.eqb tzr tzo
      then
        let ns := ts_value dr nr - ts_value do no in
        if (ns <? - int64_max - 1) || (int64_max <? ns)
        then Raise OverflowError
        else if ns =? - int64_max - 1 then Ok None
        else Ok (Some (ns / ns_per_day))
      else Raise TypeError
  | _, _ => Ok None
  end.

(** [(pd.to_datetime(retract) - pd.to_datetime(original)).dt.days] on
    the two columns: each column is converted as a whole, then the
    columns are subtracted. *)
Definition days_between (retract original : list (option date))
    : result (list (option Z)) :=
  retract ← mapM to_datetime_cell retract;
  original ← mapM to_datetime_cell original;
  mapM (fun '(r, o) => timedelta_days r o) (zip retract original).

(** The table with its three new columns. *)
Definition with_date_columns (df : list input_row)
    (original retract : list (option date)) (correction_time : list (option Z))
    : list row :=
  zip_with (fun '(r, o) '(t, c) =>
              {| input := r; original := o; retract := t;
                 correction_time := c |})
    (zip df original) (zip retract correction_time).

(** Line 157 on one row taken alone. *)
Definition row_days (retract original : option date) : result (option Z) :=
  r ← to_datetime_cell retract;
  o ← to_datetime_cell original;
  timedelta_days r o.

(** [df.dropna(subset=[column])], for a column given by its test for
    missing values. *)
Definition dropna (column_isna : row → bool) (df : list row) : list row :=
  List.filter (fun r => negb (column_isna r)) df.

Section Cleaning.
(** [pd.to_datetime(..., format='mixed', errors='coerce')] on one cell:
    [NaT] when the cell is missing or is not read as a date. *)
Variable to_datetime_coerce : pyval → Timestamp.

Definition original_date (r : input_row) : option date :=
  dt_date (to_datetime_coerce (OriginalPaperDate r)).

Definition retract_date (r : input_row) : option date :=
  dt_date (to_datetime_coerce (RetractionDate r)).

Definition cleaning (df : list input_row) : IO (list row) :=
  let original := original_date <$> df in
  let retract := retract_date <$> df in
  days ← lift (days_between retract original);
  let df := with_date_columns df original retract days in
  let df := dropna (fun r => bool_decide (correction_time r = None)) df in
  _ ← emit (LogInfo ("Number of rows after dropping correction time NaNs: "
                     +:+ pretty (length df)));
  let df := dropna (fun r => pd_isna (OriginalPaperDOI (input r))) df in
  _ ← emit (LogInfo ("Number of rows after dropping DOI NaNs: "
                     +:+ pretty (length df)));
  mret df.

(** The correction time of a row is computable when both of its dates
    are read. *)
Definition computable (r : input_row) : bool :=
  match to_datetime_coerce (RetractionDate r),
        to_datetime_coerce (OriginalPaperDate r) with
  | Ts _ _ _, Ts _ _ _ => true
  | _, _ => false
  end.

Definition has_doi (r : input_row) : bool :=
  negb (pd_isna (OriginalPaperDOI r)).

(** The rows on which line 157, taken on the row alone, does not raise:
    the midnights of its dates are timestamps, and their difference fits
    64 bits. *)
Definition subtractable (r : input_row) : bool :=
  match row_days (retract_date r) (original_date r) with
  | Ok _ => true
  | Raise _ => false
  end.

(** A row with its three new columns, when line 157 does not raise. *)
Definition add_date_columns (r : input_row) : row :=
  {| input := r;
     original := original_date r;
     retract := retract_date r;
     correction_time :=
       default None (returned (row_days (retract_date r) (original_date r))) |}.
End Cleaning.

(** A reader of date cells for the examples, in the place of
    [pd.to_datetime(..., errors='coerce')]: it reads what
    [iso_to_datetime] reads, and gives [NaT] on everything else. *)
Definition coerce_iso (v : pyval) : Timestamp :=
  match v with
  | PyStr s =>
      match iso_to_datetime s with
      | Ok ts => ts
      | Raise _ => NaT
      end
  | _ => NaT
  end.


Definition rows_in_reach : list input_row :=
  [ {| OriginalPaperDate := PyStr "2019-01-01";
       RetractionDate := PyStr "2020-06-15";
       OriginalPaperDOI := PyStr "10.1/x" |};
    {| OriginalPaperDate := PyStr "2018-03-02";
       RetractionDate := PyStr "not known";
       OriginalPaperDOI := PyStr "10.1/y" |};
    {| OriginalPaperDate := PyStr "2018-03-02";
       RetractionDate := PyStr "2019-03-02";
       OriginalPaperDOI := PyNaN |} ].

(** ** Examples of inputs *)

(** The citation entry [{"creation": s}]. *)
Definition cite (s : string) : pydict := {[ "creation" := PyStr s ]}.

(** A file that chardet takes for Windows-1252 and that pandas reads
    only as ISO-8859-1; the table read is the list of its lines. *)
Definition detect_cp1252 (file_path : string) (num_bytes : Z)
    : result (option string) :=
  Ok (Some "Windows-1252").

Definition read_latin1_only (file_path : string) (encoding : option string)
    (sep : string) : result (list string) :=
  if bool_decide (encoding = Some "ISO-8859-1")
  then Ok ["Record ID,Title"; "1,A title"]
  else Raise UnicodeDecodeError.

(** ** What one loop iteration of count_citations reads from an entry *)

(** The part of the loop body of [count_citations] that looks at the
    entry (lines 51-54): the subscript, the normalisation, and the
    conversion of a known date.  [Ok None] is the [continue]. *)
Definition entry_timestamp (to_datetime : string → result Timestamp)
    (citation : pydict) : result (option Timestamp) :=
  v ← getitem citation "creation";
  creation_date ← standardize_date v;
  match creation_date with
  | None => Ok None
  | Some s => creation_date ← to_datetime s; Ok (Some creation_date)
  end.

(** The URLs requested in a trace, in order. *)
Definition requests_made (tr : list event) : list string :=
  omap (fun ev => match ev with
                  | HttpGet url => Some url
                  | _ => None
                  end) tr.

(** The log lines of a trace, in order. *)
Definition log_lines (tr : list event) : list string :=
  omap (fun ev => match ev with
                  | LogInfo text => Some text
                  | _ => None
                  end) tr.

(** ** main: loading (lines 148-150) *)

(** [len(df)] on what [read_csv_robust] returned: [None] has no
    length. *)
Definition len {A} (df : option (list A)) : result nat :=
  match df with
  | Some rows => Ok (length rows)
  | None => Raise TypeError
  end.

Section Loading.
Variable sample_and_detect : string → Z → result (option string).
Variable pd_read_csv :
  string → option string → string → result (list input_row).

(** The call uses the defaults [sep=","] and [num_bytes=10000]. *)
Definition loading : IO (option (list input_row)) :=
  df ← read_csv_robust (list input_row) sample_and_detect pd_read_csv
         "retractions.csv" "," 10000;
  total_n ← lift (len df);
  _ ← emit (LogInfo ("Total number of rows: " +:+ pretty total_n));
  mret df.
End Loading.

(** ** main: fetching (lines 167-182) *)

(** How an f-string shows a value: [str(v)].  Dates show as
    [YYYY-MM-DD], zero-padded. *)
Fixpoint zeros (n : nat) : string :=
  match n with
  | O => ""
  | S k => "0" +:+ zeros k
  end.

Definition zfill (width : nat) (s : string) : string :=
  zeros (width - String.length s) +:+ s.

Definition format_value (v : pyval) : string :=
  match v with
  | PyNone => "None"
  | PyNaN => "nan"
  | PyNaT => "NaT"
  | PyInt z => pretty z
  | PyStr s => s
  | PyDate d =>
      zfill 4 (pretty (year d)) +:+ "-" +:+ zfill 2 (pretty (month d))
      +:+ "-" +:+ zfill 2 (pretty (day d))
  end.

(** The events of the fetching stage: those of the functions it calls,
    and the pause [time.sleep(random())], of less than a second. *)
Inductive run_event : Type :=
  | Sub (ev : event)
  | Sleep.

Definition Run (A : Type) : Type :=
  list run_event → result A * list run_event.

#[global] Instance Run_ret : MRet Run := fun A a tr => (Ok a, tr).
#[global] Instance Run_bind : MBind Run := fun A B f m tr =>
  match m tr with
  | (Ok a, tr') => f a tr'
  | (Raise e, tr') => (Raise e, tr')
  end.

(** A call of one of the functions above: its events follow those
    already in the trace. *)
Definition sub {A} (m : IO A) : Run A :=
  fun tr => let '(r, evs) := run m in (r, tr ++ (Sub <$> evs)).

Definition sleep_random : Run unit := fun tr => (Ok tt, tr ++ [Sleep]).

Definition log_every : nat := 50.
Definition sleep_every : nat := 50.

Section Fetching.
Variable requests_get : string → list (string * string) → result response.

(** The [for] loop, with [cites] and [counter] as accumulators. *)
Fixpoint fetch_loop (total_n : nat) (dois : list pyval)
    (cites : list (list pydict)) (counter : nat)
    : Run (list (list pydict)) :=
  match dois with
  | [] => mret cites
  | doi :: rest =>
      fetched ← sub (fetch_citations requests_get (format_value doi));
      let cites := cites ++ [fetched] in
      let counter := S counter in
      _ ← (if (counter mod log_every =? 0)%nat
           then sub (emit (LogInfo ("Processed " +:+ pretty counter
                                    +:+ " of " +:+ pretty total_n
                                    +:+ " rows")))
           else mret tt);
      _ ← (if (counter mod sleep_every =? 0)%nat
           then sleep_random
           else mret tt);
      fetch_loop total_n rest cites counter
  end.

(** The stage returns the list it assigns to the [cites] column. *)
Definition fetching (df : list row) : Run (list (list pydict)) :=
  let cites := [] in
  let total_n := length df in
  let counter := O in
  let dois := (fun r => OriginalPaperDOI (input r)) <$> df in
  cites ← fetch_loop total_n dois cites counter;
  _ ← sub (emit (LogInfo "Collected all citations"));
  mret cites.
End Fetching.

(** The URLs requested, the pauses and the progress lines of a trace of
    the stage. *)
Definition run_requests (tr : list run_event) : list string :=
  omap (fun ev => match ev with
                  | Sub (HttpGet url) => Some url
                  | _ => None
                  end) tr.

Definition sleeps (tr : list run_event) : nat :=
  length (List.filter (fun ev => match ev with
                                 | Sleep => true
                                 | Sub _ => false
                                 end) tr).

(** ** More examples of inputs *)

(** A file that cannot be opened. *)
Definition detect_no_file (file_path : string) (num_bytes : Z)
    : result (option string) :=
  Raise OSError.

(** A file that no encoding reads. *)
Definition read_nothing (file_path : string) (encoding : option string)
    (sep : string) : result (list input_row) :=
  Raise ParserError.

(** Two rows, and a file that pandas reads only as ISO-8859-1. *)
Definition two_rows : list input_row :=
  [ {| OriginalPaperDate := PyStr "1/1/2019 0:00";
       RetractionDate := PyStr "6/15/2020 0:00";
       OriginalPaperDOI := PyStr "10.1/x" |};
    {| OriginalPaperDate := PyStr "3/2/2018 0:00";
       RetractionDate := PyNaN;
       OriginalPaperDOI := PyNaN |} ].

Definition read_rows_latin1 (file_path : string) (encoding : option string)
    (sep : string) : result (list input_row) :=
  if bool_decide (encoding = Some "ISO-8859-1")
  then Ok two_rows
  else Raise UnicodeDecodeError.

(** A service that is down, and one that answers 404. *)
Definition service_down (url : string) (headers : list (string * string))
    : result response :=
  Raise ConnectionError.

Definition service_404 (url : string) (headers : list (string * string))
    : result response :=
  Ok {| status_code := 404; json := Raise JSONDecodeError |}.


(** * Properties *)

(** ** Splitting *)

Lemma str_split_length sep s :
  length (str_split sep s) = S (str_count sep s).
Proof.
  induction s as [|c s IH]; simpl; [done|].
  destruct (Ascii.eqb c sep); simpl; [by rewrite IH|].
  destruct (str_split sep s); simpl in *; lia.
Qed.

Lemma str_count_app sep s t :
  str_count sep (s +:+ t) = (str_count sep s + str_count sep t)%nat.
Proof.
  induction s as [|c s IH]; simpl; [done|].
  destruct (Ascii.eqb c sep); simpl; lia.
Qed.

(** Joining the pieces with the separator gives the string back. *)
Lemma str_split_join sep s :
  String.concat (String sep EmptyString) (str_split sep s) = s.
Proof.
  induction s as [|c s IH]; simpl; [done|].
  destruct (Ascii.eqb_spec c sep) as [->|_].
  - destruct (str_split sep s) as [|p ps] eqn:E; simpl in *.
    + pose proof (str_split_length sep s) as H. by rewrite E in H.
    + by rewrite IH.
  - destruct (str_split sep s) as [|p [|q ps]] eqn:E; simpl in *;
      by rewrite <- IH.
Qed.

(** [standardize_date] on a string, by the number of hyphens in it. *)
Lemma standardize_date_str s :
  standardize_date (PyStr s) =
  Ok (match str_count hyphen s with
      | 1%nat => Some (s +:+ "-01")
      | 2%nat => Some s
      | _ => None
      end).
Proof.
  unfold standardize_date; simpl. rewrite str_split_length.
  by destruct (str_count hyphen s) as [|[|[|n]]].
Qed.

(** ** standardize_date *)

(** C2. A missing or empty value normalises to unknown.  A string splits
    at its hyphens into one more component than it has hyphens; with
    exactly one component it normalises to unknown, with exactly two to
    the string followed by "-01", with exactly three to itself, and with
    any other number of components to unknown. *)
Theorem standardize_date_by_components :
  standardize_date PyNone = Ok None
  ∧ standardize_date PyNaN = Ok None
  ∧ standardize_date (PyStr "") = Ok None
  ∧ ∀ s : string,
      length (str_split hyphen s) = S (str_count hyphen s)
      ∧ standardize_date (PyStr s) =
        Ok (match length (str_split hyphen s) with
            | 1%nat => None
            | 2%nat => Some (s +:+ "-01")
            | 3%nat => Some s
            | _ => None
            end).
Proof.
  repeat split; try reflexivity.
  - apply str_split_length.
  - rewrite standardize_date_str, str_split_length.
    by destruct (str_count hyphen s) as [|[|[|n]]].
Qed.

(** C6, as stated, fails: a value that is neither missing nor a string
    has no [split], and the call raises. *)
Lemma standardize_date_int_raises :
  standardize_date (PyInt 2020) = Raise AttributeError.
Proof. reflexivity. Qed.

(** C6, amended.  [standardize_date] returns without raising exactly on
    missing values and on strings.  A missing value gives the unknown
    marker; a string gives the unknown marker exactly when it does not
    have two or three components, whatever its components are; any other
    value raises [AttributeError]. *)
Theorem standardize_date_total_on_str :
  ∀ v : pyval,
    match v with
    | PyNone | PyNaN | PyNaT => standardize_date v = Ok None
    | PyStr s =>
        ∃ r, standardize_date v = Ok r
             ∧ (r = None ↔ length (str_split hyphen s) ≠ 2%nat
                           ∧ length (str_split hyphen s) ≠ 3%nat)
    | PyInt _ | PyDate _ => standardize_date v = Raise AttributeError
    end.
Proof.
  intros [| | |z|s|d]; try reflexivity.
  rewrite standardize_date_str, str_split_length.
  eexists; split; [reflexivity|].
  destruct (str_count hyphen s) as [|[|[|n]]]; split; try done; try lia;
    intros [??]; lia.
Qed.

(** ** The order on dates and timestamps *)

Ltac zbool :=
  repeat match goal with
         | |- context [(?x <? ?y)%Z] => destruct (Z.ltb_spec x y)
         | |- context [(?x =? ?y)%Z] => destruct (Z.eqb_spec x y)
         | H : context [(?x <? ?y)%Z] |- _ => destruct (Z.ltb_spec x y)
         | H : context [(?x =? ?y)%Z] |- _ => destruct (Z.eqb_spec x y)
         end;
  simpl in *; try done; try lia.

Lemma date_ltb_asym a b : date_ltb a b = true → date_ltb b a = false.
Proof. destruct a, b; unfold date_ltb; simpl; intros H; zbool. Qed.

Lemma date_geb_split a b : date_geb a b = date_ltb b a || date_eqb a b.
Proof. destruct a, b; unfold date_geb, date_ltb, date_eqb; simpl; zbool. Qed.

Lemma date_ltb_eqb_excl a b : date_eqb a b = true → date_ltb b a = false.
Proof. destruct a, b; unfold date_ltb, date_eqb; simpl; intros H; zbool. Qed.

Lemma date_eqb_refl a : date_eqb a a = true.
Proof. destruct a; unfold date_eqb; simpl; zbool. Qed.

Lemma date_ltb_irrefl a : date_ltb a a = false.
Proof. destruct a; unfold date_ltb; simpl; zbool. Qed.

Lemma ts_lt_asym a b : ts_lt a b = Ok true → ts_lt b a = Ok false.
Proof.
  destruct a as [[y1 m1 d1] n1 z1|], b as [[y2 m2 d2] n2 z2|]; simpl; try done.
  destruct z1, z2; simpl; try done;
    unfold date_ltb, date_eqb; simpl; intros [= H]; f_equal; zbool.
Qed.

Lemma ts_lt_irrefl a : ts_lt a a = Ok false.
Proof.
  destruct a as [d n z|]; simpl; [|done].
  rewrite Bool.eqb_reflx, date_ltb_irrefl, Z.ltb_irrefl.
  by rewrite andb_false_r.
Qed.

Lemma ts_lt_midnights a b :
  ts_lt (Ts a 0 false) (Ts b 0 false) = Ok (date_ltb a b).
Proof. simpl. by rewrite andb_false_r, orb_false_r. Qed.

(** ** count_citations *)

Lemma to_datetime_obj_naive target t :
  to_datetime_obj target = Ok t → ∃ d n, t = Ts d n false.
Proof.
  destruct target as [d|d n]; simpl;
    destruct (in_timestamp_range _ _); intros [= <-]; eauto.
Qed.

Lemma to_datetime_obj_midnight target :
  at_midnight target = true →
  representable target = true →
  to_datetime_obj target = Ok (Ts (target_day target) 0 false).
Proof.
  unfold representable.
  destruct target as [d|d n]; simpl.
  - intros _. by destruct (in_timestamp_range d 0).
  - intros ->%Z.eqb_eq. by destruct (in_timestamp_range d 0).
Qed.

Section CountCitationsFacts.
Variable to_datetime : string → result Timestamp.

(** What the loop returns, whatever it raises otherwise: it gets
    through exactly when every entry is countable, and then each
    counter has grown by the number of entries strictly on its side of
    the target date. *)
Lemma count_loop_returned target t citations b a :
  to_datetime_obj target = Ok t →
  returned (count_loop to_datetime t citations b a) =
  if forallb (countable to_datetime) citations
  then Some {| before :=
                 b + length (List.filter
                               (strictly_earlier to_datetime target) citations);
               after :=
                 a + length (List.filter
                               (strictly_later to_datetime target) citations) |}
  else None.
Proof.
  intros Ht. destruct (to_datetime_obj_naive _ _ Ht) as (dt & nt & Hnaive).
  revert b a. induction citations as [|c rest IH]; intros b a; simpl.
  { by rewrite !Nat.add_0_r. }
  set (E := List.filter (strictly_earlier to_datetime target) rest) in *.
  set (L := List.filter (strictly_later to_datetime target) rest) in *.
  unfold countable, strictly_earlier, strictly_later, creation_timestamp,
    getitem.
  rewrite Ht.
  destruct (c !! "creation") as [v|]; simpl; [|done].
  destruct (standardize_date v) as [[s|]|e]; simpl; [|apply IH|done].
  destruct (to_datetime s) as [ts|e]; simpl; [|done].
  unfold ts_gt.
  destruct (ts_lt ts t) as [[|]|e] eqn:Hlt; simpl.
  - rewrite (ts_lt_asym _ _ Hlt).
    assert (is_naive ts = true) as ->.
    { subst t. destruct ts as [d n [|]|]; simpl in *; done. }
    simpl. rewrite IH. destruct (forallb _ rest); [|done].
    do 2 f_equal; lia.
  - assert (is_naive ts = true) as ->.
    { subst t. destruct ts as [d n [|]|]; simpl in *; done. }
    assert (∃ g, ts_lt t ts = Ok g) as [g Hgt].
    { subst t. destruct ts as [d n [|]|]; simpl in *; try done; eauto. }
    rewrite Hgt. simpl.
    destruct g; simpl; rewrite IH; (destruct (forallb _ rest); [|done]);
      do 2 f_equal; lia.
  - assert (is_naive ts = false) as ->.
    { subst t. destruct ts as [d n [|]|]; simpl in *; done. }
    done.
Qed.

Lemma count_citations_returned target citations :
  returned (count_citations to_datetime citations target) =
  if representable target && forallb (countable to_datetime) citations
  then Some {| before :=
                 length (List.filter
                           (strictly_earlier to_datetime target) citations);
               after :=
                 length (List.filter
                           (strictly_later to_datetime target) citations) |}
  else None.
Proof.
  unfold count_citations, representable.
  destruct (to_datetime_obj target) as [t|e] eqn:Ht; simpl; [|done].
  by rewrite (count_loop_returned target t _ _ _ Ht).
Qed.
End CountCitationsFacts.

Lemma returned_Some {A} (r : result A) a : returned r = Some a ↔ r = Ok a.
Proof. destruct r; simpl; split; congruence. Qed.

Lemma returned_None {A} (r : result A) :
  returned r = None ↔ ∃ e, r = Raise e.
Proof.
  destruct r; simpl; split; try congruence; eauto.
  by intros [? ?].
Qed.

Lemma forallb_Permutation {A} (p : A → bool) (l l' : list A) :
  l ≡ₚ l' → forallb p l = forallb p l'.
Proof.
  induction 1 as [|x l l' _ IH|x y l|l l' l'' _ IH1 _ IH2]; simpl.
  - done.
  - by rewrite IH.
  - by destruct (p x), (p y).
  - by rewrite IH1.
Qed.

Lemma filter_length_Permutation {A} (p : A → bool) (l l' : list A) :
  l ≡ₚ l' → length (List.filter p l) = length (List.filter p l').
Proof.
  induction 1 as [|x l l' _ IH|x y l|l l' l'' _ IH1 _ IH2]; simpl.
  - done.
  - destruct (p x); simpl; by rewrite IH.
  - by destruct (p x), (p y).
  - by rewrite IH1.
Qed.

(** C1, as stated, fails: on an entry without a creation value the
    subscript raises, and no counts are returned. *)
Lemma count_citations_missing_creation_raises :
  count_citations iso_to_datetime [cite "2019-06-01"; ∅]
    (PDate (Date 2021 1 1)) = Raise KeyError.
Proof. reflexivity. Qed.

(** C1, amended.  For every target date that [pd.to_datetime] turns
    into a timestamp and every sequence of citation entries that are all
    countable (each has a creation value that is missing or a string,
    and a known normalised date is one pandas reads, without timezone),
    [count_citations] returns [before] equal to the number of entries
    whose normalised creation date is known and strictly earlier than
    the target date, and [after] equal to the number of those strictly
    later; an entry whose normalised date is unknown, or equals the
    target date exactly, is in neither number.  For a target date out of
    the range of timestamps, or a sequence with an entry that is not
    countable, it raises and returns no counts. *)
Theorem count_citations_counts
    (to_datetime : string → result Timestamp)
    (citations : list pydict) (target_date : pydate) :
  (representable target_date = true
   ∧ forallb (countable to_datetime) citations = true →
   count_citations to_datetime citations target_date =
     Ok {| before := length (List.filter
                               (strictly_earlier to_datetime target_date)
                               citations);
           after := length (List.filter
                              (strictly_later to_datetime target_date)
                              citations) |})
  ∧ (representable target_date = false
     ∨ forallb (countable to_datetime) citations = false →
     ∃ e, count_citations to_datetime citations target_date = Raise e)
  ∧ ∀ c, c ∈ citations →
         unknown_date c ∨ same_instant to_datetime target_date c →
         strictly_earlier to_datetime target_date c = false
         ∧ strictly_later to_datetime target_date c = false.
Proof.
  pose proof (count_citations_returned to_datetime target_date citations)
    as Hret.
  split; [|split].
  - intros [Hr Hall]. apply returned_Some. by rewrite Hret, Hr, Hall.
  - intros Hbad. apply returned_None. rewrite Hret.
    destruct Hbad as [-> | ->]; [done|]. by rewrite andb_false_r.
  - intros c _ [(v & Hv & Hn)|(d & n & tz & Hts & Htarget)];
      unfold strictly_earlier, strictly_later, ts_gt.
    + unfold creation_timestamp. by rewrite Hv; simpl; rewrite Hn.
    + by rewrite Hts, Htarget, ts_lt_irrefl.
Qed.

Lemma count_citations_counts_witness :
  representable (PDate (Date 2021 1 1)) = true
  ∧ forallb (countable iso_to_datetime) [cite "2020"; cite "2021-05-02"] = true
  ∧ count_citations iso_to_datetime [cite "2020"; cite "2021-05-02"]
      (PDate (Date 2021 1 1)) = Ok {| before := 0; after := 1 |}.
Proof.
  split; [reflexivity|]. split; [reflexivity|].
  exact (proj1 (count_citations_counts iso_to_datetime
                  [cite "2020"; cite "2021-05-02"] (PDate (Date 2021 1 1)))
           (conj eq_refl eq_refl)).
Defined.

(** C4, as stated, fails: a creation string of three components that is
    no date passes [standardize_date] unchanged, and [pd.to_datetime]
    raises on it. *)
Lemma count_citations_unreadable_date_raises :
  count_citations iso_to_datetime [cite "not-a-date"]
    (PDate (Date 2021 1 1)) = Raise DateParseError.
Proof. reflexivity. Qed.

(** C4, amended.  For the empty citation sequence and any target date
    that [pd.to_datetime] turns into a timestamp, [count_citations]
    returns [{before: 0, after: 0}]; for any sequence and target date it
    returns a result (rather than raising) exactly when the target date
    is in the range of timestamps and every entry is countable. *)
Theorem count_citations_returns_iff
    (to_datetime : string → result Timestamp)
    (citations : list pydict) (target_date : pydate) :
  (representable target_date = true ↔
   count_citations to_datetime [] target_date
   = Ok {| before := 0; after := 0 |})
  ∧ ((∃ r, count_citations to_datetime citations target_date = Ok r)
     ↔ representable target_date = true
       ∧ forallb (countable to_datetime) citations = true).
Proof.
  split.
  - unfold count_citations, representable.
    by destruct (to_datetime_obj target_date).
  - pose proof (count_citations_returned to_datetime target_date citations)
      as H.
    destruct (representable target_date), (forallb _ citations);
      simpl in H; split.
    all: try (intros [r Hr]; by rewrite Hr in H).
    all: try (by intros [??]).
    intros _. eexists. by apply returned_Some.
Qed.

(** C5. [count_citations] is order-independent: on a permutation of the
    citation sequence it returns the same counts, and returns at all
    exactly when it does on the original sequence. *)
Theorem count_citations_order_independent
    (to_datetime : string → result Timestamp)
    (citations citations' : list pydict) (target_date : pydate) :
  citations ≡ₚ citations' →
  returned (count_citations to_datetime citations target_date)
  = returned (count_citations to_datetime citations' target_date).
Proof.
  intros Hp. rewrite !count_citations_returned.
  rewrite (forallb_Permutation _ _ _ Hp).
  by rewrite (filter_length_Permutation _ _ _ Hp),
             (filter_length_Permutation (strictly_later _ _) _ _ Hp).
Qed.

Lemma count_citations_order_independent_witness :
  [cite "2019-06-01"; cite "2021-01-01"; cite "2020"]
    ≡ₚ [cite "2020"; cite "2019-06-01"; cite "2021-01-01"]
  ∧ returned (count_citations iso_to_datetime
                [cite "2020"; cite "2019-06-01"; cite "2021-01-01"]
                (PDate (Date 2020 6 15)))
    = Some {| before := 1; after := 1 |}.
Proof.
  assert ([cite "2019-06-01"; cite "2021-01-01"; cite "2020"]
            ≡ₚ [cite "2020"; cite "2019-06-01"; cite "2021-01-01"]) as Hp.
  { eapply perm_trans; [apply perm_skip, perm_swap|apply perm_swap]. }
  split; [exact Hp|].
  rewrite <- (count_citations_order_independent iso_to_datetime _ _
                (PDate (Date 2020 6 15)) Hp).
  reflexivity.
Defined.

(** ** Strings that '%Y-%m-%d' reads *)

Lemma re_class_inv lo hi l v r :
  (v, r) ∈ re_class lo hi l → ∃ c, l = c :: r ∧ char_between lo hi c = true.
Proof.
  destruct l as [|c l]; simpl; [by intros ?%elem_of_nil|].
  destruct (char_between lo hi c) eqn:E; [|by intros ?%elem_of_nil].
  intros [= -> ->]%list_elem_of_singleton. eauto.
Qed.

Lemma re_lit_inv c l r : r ∈ re_lit c l → l = c :: r.
Proof.
  destruct l as [|c' l]; simpl; [by intros ?%elem_of_nil|].
  destruct (Ascii.eqb_spec c' c) as [->|]; [|by intros ?%elem_of_nil].
  by intros ->%list_elem_of_singleton.
Qed.

Lemma char_between_not_hyphen lo hi c :
  char_between lo hi c = true →
  (46 ≤ nat_of_ascii lo)%nat →
  Ascii.eqb c hyphen = false.
Proof.
  unfold char_between. intros [H1 _]%andb_prop Hlo.
  apply Ascii.eqb_neq. intros ->.
  apply Nat.leb_le in H1. change (nat_of_ascii hyphen) with 45%nat in H1. lia.
Qed.

Ltac re_inv :=
  repeat match goal with
         | H : _ ∈ _ ≫= _ |- _ => apply list_elem_of_bind in H as (? & ? & ?)
         | H : _ ∈ (let '(_, _) := ?y in _) |- _ => destruct y
         | H : _ ∈ _ ++ _ |- _ => apply elem_of_app in H as [?|?]
         | H : _ ∈ [_] |- _ => apply list_elem_of_singleton in H; simplify_eq
         | H : _ ∈ re_digit _ |- _ => unfold re_digit in H
         | H : (_, _) ∈ re_class _ _ _ |- _ =>
             apply re_class_inv in H as (? & -> & ?)
         | H : _ ∈ re_lit _ _ |- _ => apply re_lit_inv in H as ->
         end.

Ltac no_hyphen :=
  repeat match goal with
         | H : char_between ?lo ?hi ?c = true |- _ =>
             rewrite (char_between_not_hyphen lo hi c H) by (vm_compute; lia);
             clear H
         end.

(** Every string the regular expression matches to its end has exactly
    two hyphens. *)
Lemma re_Ymd_hyphens l y m d :
  (y, m, d, []) ∈ re_Ymd l →
  str_count hyphen (string_of_list_ascii l) = 2%nat.
Proof.
  unfold re_Ymd, re_Y, re_m, re_d. intros H. re_inv; simpl; no_hyphen; done.
Qed.

Lemma strptime_Ymd_hyphens s d :
  strptime_Ymd s = Ok d → str_count hyphen s = 2%nat.
Proof.
  unfold strptime_Ymd.
  destruct (head _) as [[[[y m] dd] [|c r]]|] eqn:E; try done.
  intros _. apply head_Some_elem_of, re_Ymd_hyphens in E.
  by rewrite string_of_list_ascii_of_string in E.
Qed.

(** A string that ['%Y-%m-%d'] reads has three components, and
    [standardize_date] passes it through. *)
Lemma standardize_date_full s d :
  strptime_Ymd s = Ok d → standardize_date (PyStr s) = Ok (Some s).
Proof.
  intros H. by rewrite standardize_date_str, (strptime_Ymd_hyphens s d H).
Qed.

Example strptime_reads_unpadded_fields :
  strptime_Ymd "2021-5-2" = Ok (Date 2021 5 2).
Proof. reflexivity. Qed.

Example strptime_rejects_month_13 :
  strptime_Ymd "2021-13-02" = Raise ValueError.
Proof. reflexivity. Qed.

Example strptime_rejects_february_30 :
  strptime_Ymd "2021-02-30" = Raise ValueError.
Proof. reflexivity. Qed.

Example strptime_rejects_year_month :
  strptime_Ymd "2021-05" = Raise ValueError.
Proof. reflexivity. Qed.

(** ** process_citation_counts *)

Lemma date_eqb_eq a b : date_eqb a b = true → a = b.
Proof.
  destruct a, b; unfold date_eqb; simpl; intros H.
  f_equal; zbool.
Qed.

Lemma process_citation_counts_result citations retraction_date :
  (run (process_citation_counts citations retraction_date)).1 =
  let d := match retraction_date with PDatetime d _ | PDate d => d end in
  match mapM (fun citation => v ← getitem citation "creation";
                              strptime_date v) citations with
  | Ok creation_dates =>
      Ok (NpInt (np_sum_where (fun x => date_ltb x d) creation_dates),
          NpInt (np_sum_where (fun x => date_geb x d) creation_dates))
  | Raise _ => Ok (NpNaN, NpNaN)
  end.
Proof.
  unfold run, process_citation_counts, try_except, lift; simpl.
  unfold mbind at 1, IO_bind.
  by destruct (mapM _ citations).
Qed.

Section TwoCounters.
Variable to_datetime : string → result Timestamp.

(** One entry that is a full date, as each of the two functions sees
    it. *)
Lemma full_date_entry_inv c :
  full_date_entry to_datetime c = true →
  ∃ s d, c !! "creation" = Some (PyStr s)
         ∧ strptime_Ymd s = Ok d
         ∧ to_datetime s = Ok (Ts d 0 false).
Proof.
  unfold full_date_entry.
  destruct (c !! "creation") as [v|]; [|done].
  destruct v as [ | | |z|s|d0]; try done.
  destruct (strptime_Ymd s) as [d|] eqn:Hd; [|done].
  destruct (to_datetime s) as [[d' n tz| ]|e] eqn:Ht; simpl; try done.
  intros [[->%date_eqb_eq ->%Z.eqb_eq]%andb_prop Htz]%andb_prop.
  destruct tz; [done|]. by eexists _, _.
Qed.

Lemma full_date_entry_countable c :
  full_date_entry to_datetime c = true → countable to_datetime c = true.
Proof.
  intros (s & d & Hc & Hd & Ht)%full_date_entry_inv.
  unfold countable. by rewrite Hc, (standardize_date_full s d Hd), Ht.
Qed.

Lemma full_date_entries_countable citations :
  forallb (full_date_entry to_datetime) citations = true →
  forallb (countable to_datetime) citations = true.
Proof.
  induction citations as [|c rest IH]; simpl; [done|].
  intros [Hc Hrest]%andb_prop.
  by rewrite (full_date_entry_countable c Hc), IH.
Qed.

(** On full dates and a target at midnight, the dates [strptime] builds
    split around the day of the target as the timestamps of
    [count_citations] do, the days equal to it going to the second
    count. *)
Lemma creation_dates_counts citations target :
  at_midnight target = true →
  representable target = true →
  forallb (full_date_entry to_datetime) citations = true →
  ∃ creation_dates,
    mapM (fun citation => v ← getitem citation "creation";
                          strptime_date v) citations = Ok creation_dates
    ∧ np_sum_where (fun x => date_ltb x (target_day target)) creation_dates
      = length (List.filter (strictly_earlier to_datetime target) citations)
    ∧ np_sum_where (fun x => date_geb x (target_day target)) creation_dates
      = (length (List.filter (strictly_later to_datetime target) citations)
         + length (List.filter (created_on (target_day target)) citations))%nat.
Proof.
  intros Hmid Hrep.
  pose proof (to_datetime_obj_midnight target Hmid Hrep) as Ht.
  set (d := target_day target) in *.
  unfold np_sum_where.
  induction citations as [|c rest IH]; simpl.
  { intros _. by exists []. }
  intros [Hc Hrest]%andb_prop.
  destruct (IH Hrest) as (ds & Hds & Hlt & Hge).
  destruct (full_date_entry_inv c Hc) as (s & dd & Hcr & Hdd & Hts).
  assert (getitem c "creation" = Ok (PyStr s)) as Hg.
  { unfold getitem. by rewrite Hcr. }
  exists (dd :: ds). rewrite Hg; simpl. rewrite Hdd; simpl. rewrite Hds.
  split; [done|].
  assert (strictly_earlier to_datetime target c = date_ltb dd d) as ->.
  { unfold strictly_earlier, creation_timestamp. rewrite Ht, Hcr; simpl.
    rewrite (standardize_date_full s dd Hdd); simpl. rewrite Hts; simpl.
    by rewrite andb_false_r, orb_false_r. }
  assert (strictly_later to_datetime target c = date_ltb d dd) as ->.
  { unfold strictly_later, creation_timestamp, ts_gt. rewrite Ht, Hcr; simpl.
    rewrite (standardize_date_full s dd Hdd); simpl. rewrite Hts; simpl.
    by rewrite andb_false_r, orb_false_r. }
  assert (created_on d c = date_eqb dd d) as ->.
  { unfold created_on, creation_full_date. rewrite Hcr; simpl.
    by rewrite Hdd. }
  simpl. rewrite date_geb_split.
  destruct (date_ltb dd d) eqn:E1; simpl.
  - rewrite Hlt. rewrite (date_ltb_asym _ _ E1); simpl.
    destruct (date_eqb dd d) eqn:E2; simpl.
    + apply date_eqb_eq in E2 as ->. by rewrite date_ltb_irrefl in E1.
    + done.
  - split; [done|].
    destruct (date_ltb d dd) eqn:E3, (date_eqb dd d) eqn:E4; simpl;
      rewrite ?Hge; try lia.
    apply date_eqb_eq in E4 as ->. by rewrite date_ltb_irrefl in E3.
Qed.

(** An entry that is no full date makes the list comprehension raise,
    wherever it stands in the list. *)
Lemma creation_dates_raise citations :
  existsb not_full_date citations = true →
  ∃ e, mapM (fun citation => v ← getitem citation "creation";
                             strptime_date v) citations = Raise e.
Proof.
  induction citations as [|c rest IH]; simpl; [done|].
  destruct (not_full_date c) eqn:E; simpl.
  - intros _. unfold not_full_date, creation_full_date in E.
    destruct (c !! "creation") as [v|] eqn:Hc; simpl in E.
    + assert (getitem c "creation" = Ok v) as ->.
      { unfold getitem. by rewrite Hc. }
      simpl. destruct (strptime_date v); [done|]. simpl. eauto.
    + assert (getitem c "creation" = Raise KeyError) as ->.
      { unfold getitem. by rewrite Hc. }
      simpl. eauto.
  - intros [e He]%IH. rewrite He.
    destruct (getitem c "creation" ≫= _); simpl; eauto.
Qed.
End TwoCounters.

(** With the example reader, every string that ['%Y-%m-%d'] reads as a
    day in the range of timestamps is a full date entry. *)
Lemma iso_full_date_entry s d :
  strptime_Ymd s = Ok d →
  representable (PDate d) = true →
  full_date_entry iso_to_datetime (cite s) = true.
Proof.
  intros H Hr. unfold full_date_entry, cite, iso_to_datetime.
  rewrite lookup_singleton_eq, H.
  rewrite (to_datetime_obj_midnight (PDate d) eq_refl Hr); simpl.
  by rewrite date_eqb_refl.
Qed.

(** C3, as stated, fails: for a target date after the last timestamp,
    [count_citations] raises on line 48 and returns no count, while
    [process_citation_counts], which compares dates, returns its two
    counts. *)
Lemma counters_differ_out_of_range :
  full_date_entry iso_to_datetime (cite "2019-06-01") = true
  ∧ count_citations iso_to_datetime [cite "2019-06-01"]
      (PDate (Date 2262 4 12)) = Raise OutOfBoundsDatetime
  ∧ (run (process_citation_counts [cite "2019-06-01"]
            (PDate (Date 2262 4 12)))).1 = Ok (NpInt 1, NpInt 0).
Proof. repeat split. Qed.

(** C3, amended.  On a list of citation entries whose creation strings
    are all full dates that [pd.to_datetime] reads as midnight of that
    day (so within the range of timestamps), and for every target that
    is a date, or a datetime at midnight, within that range, the two
    counting functions return the same before count, and the after count
    of [process_citation_counts] is the after count of [count_citations]
    plus the number of entries created on the target date. *)
Theorem counters_differ_on_equality
    (to_datetime : string → result Timestamp)
    (citations : list pydict) (target_date : pydate) :
  at_midnight target_date = true →
  representable target_date = true →
  forallb (full_date_entry to_datetime) citations = true →
  ∃ r,
    count_citations to_datetime citations target_date = Ok r
    ∧ (run (process_citation_counts citations target_date)).1
      = Ok (NpInt (before r),
            NpInt (after r
                   + length (List.filter (created_on (target_day target_date))
                               citations))).
Proof.
  intros Hmid Hrep Hfull.
  pose proof (count_citations_returned to_datetime target_date citations)
    as Hcc.
  rewrite Hrep, (full_date_entries_countable _ _ Hfull) in Hcc.
  apply returned_Some in Hcc.
  eexists; split; [exact Hcc|].
  destruct (creation_dates_counts to_datetime citations target_date
              Hmid Hrep Hfull) as (ds & Hds & Hlt & Hge).
  rewrite process_citation_counts_result. cbv zeta.
  change (match target_date with PDatetime d _ | PDate d => d end)
    with (target_day target_date).
  rewrite Hds, Hlt, Hge. done.
Qed.

Lemma counters_differ_on_equality_witness :
  at_midnight (PDate (Date 2020 6 15)) = true
  ∧ representable (PDate (Date 2020 6 15)) = true
  ∧ forallb (full_date_entry iso_to_datetime)
      [cite "2019-06-01"; cite "2021-01-01"; cite "2020-06-15"] = true
  ∧ ∃ r,
      count_citations iso_to_datetime
        [cite "2019-06-01"; cite "2021-01-01"; cite "2020-06-15"]
        (PDate (Date 2020 6 15)) = Ok r
      ∧ (run (process_citation_counts
                [cite "2019-06-01"; cite "2021-01-01"; cite "2020-06-15"]
                (PDate (Date 2020 6 15)))).1
        = Ok (NpInt (before r),
              NpInt (after r
                     + length (List.filter (created_on (Date 2020 6 15))
                                 [cite "2019-06-01"; cite "2021-01-01";
                                  cite "2020-06-15"]))).
Proof.
  do 3 (split; [reflexivity|]).
  exact (counters_differ_on_equality iso_to_datetime
           [cite "2019-06-01"; cite "2021-01-01"; cite "2020-06-15"]
           (PDate (Date 2020 6 15)) eq_refl eq_refl eq_refl).
Defined.

(** C10. [process_citation_counts] is all-or-nothing: for every citation
    list and target date, if any entry lacks a creation value or has one
    that is not a full date as ['%Y-%m-%d'] reads it, both counts are
    [NaN], whatever the other entries are. *)
Theorem process_citation_counts_all_or_nothing
    (citations : list pydict) (retraction_date : pydate) :
  existsb not_full_date citations = true →
  (run (process_citation_counts citations retraction_date)).1
  = Ok (NpNaN, NpNaN).
Proof.
  intros [e He]%creation_dates_raise.
  rewrite process_citation_counts_result; simpl. by rewrite He.
Qed.

Lemma process_citation_counts_all_or_nothing_witness :
  existsb not_full_date
    [cite "2019-06-01"; cite "2021-01"; cite "2020-06-15"] = true
  ∧ (run (process_citation_counts
            [cite "2019-06-01"; cite "2021-01"; cite "2020-06-15"]
            (PDate (Date 2020 6 15)))).1 = Ok (NpNaN, NpNaN).
Proof.
  split; [reflexivity|].
  apply process_citation_counts_all_or_nothing. reflexivity.
Defined.

(** ** fetch_citations *)

(** C8. For every identifier, [fetch_citations] returns and never
    raises; it returns the empty list whenever the request raises or the
    response status is not 200; only on status 200 does it return the
    parsed citation list of the response (the empty list if parsing the
    body raises). *)
Theorem fetch_citations_best_effort
    (requests_get : string → list (string * string) → result response)
    (doi : string) :
  ∃ citations tr,
    run (fetch_citations requests_get doi) = (Ok citations, tr)
    ∧ match requests_get (citations_url doi) accept_json with
      | Raise _ => citations = []
      | Ok response =>
          if status_code response =? 200
          then match json response with
               | Ok parsed => citations = parsed
               | Raise _ => citations = []
               end
          else citations = []
      end.
Proof.
  unfold run, fetch_citations, try_except, call, emit, lift; simpl.
  unfold mbind, IO_bind, mret, IO_ret; simpl.
  destruct (requests_get _ _) as [resp|e]; simpl; [|by eexists _, _].
  destruct (status_code resp =? 200); simpl; [|by eexists _, _].
  destruct (json resp); simpl; by eexists _, _.
Qed.

(** ** read_csv_robust *)

(** C7. Once the encoding is detected, [read_csv_robust] first parses
    with the detected encoding; it parses with UTF-8 only if that raised,
    and with ISO-8859-1 only if UTF-8 raised too; it returns the table of
    the first parse that succeeds, and [None] when all three raise. *)
Theorem read_csv_robust_fallback_chain
    (table : Type)
    (sample_and_detect : string → Z → result (option string))
    (pd_read_csv : string → option string → string → result table)
    (file_path sep : string) (num_bytes : Z)
    (encoding_detected : option string) :
  sample_and_detect file_path num_bytes = Ok encoding_detected →
  ∃ df tr,
    run (read_csv_robust table sample_and_detect pd_read_csv
           file_path sep num_bytes) = (Ok df, tr)
    ∧ match pd_read_csv file_path encoding_detected sep with
      | Ok t => df = Some t ∧ attempts tr = [encoding_detected]
      | Raise _ =>
          match pd_read_csv file_path (Some "utf-8") sep with
          | Ok t =>
              df = Some t
              ∧ attempts tr = [encoding_detected; Some "utf-8"]
          | Raise _ =>
              attempts tr
              = [encoding_detected; Some "utf-8"; Some "ISO-8859-1"]
              ∧ match pd_read_csv file_path (Some "ISO-8859-1") sep with
                | Ok t => df = Some t
                | Raise _ => df = None
                end
          end
      end.
Proof.
  intros Hdetect.
  unfold run, read_csv_robust, detect_encoding, read_csv, try_except, call,
    emit; simpl.
  unfold mbind, IO_bind, mret, IO_ret; simpl. rewrite Hdetect; simpl.
  destruct (pd_read_csv file_path encoding_detected sep); simpl;
    [by eexists _, _|].
  destruct (pd_read_csv file_path (Some "utf-8") sep); simpl;
    [by eexists _, _|].
  destruct (pd_read_csv file_path (Some "ISO-8859-1") sep); simpl;
    by eexists _, _.
Qed.

Lemma read_csv_robust_fallback_chain_witness :
  detect_cp1252 "retractions.csv" 10000 = Ok (Some "Windows-1252")
  ∧ ∃ df tr,
      run (read_csv_robust (list string) detect_cp1252 read_latin1_only
             "retractions.csv" "," 10000) = (Ok df, tr)
      ∧ attempts tr = [Some "Windows-1252"; Some "utf-8"; Some "ISO-8859-1"]
      ∧ df = Some ["Record ID,Title"; "1,A title"].
Proof.
  split; [reflexivity|].
  destruct (read_csv_robust_fallback_chain (list string) detect_cp1252
              read_latin1_only "retractions.csv" "," 10000
              (Some "Windows-1252") eq_refl) as (df & tr & Hrun & Hchain).
  exists df, tr. split; [exact Hrun|]. exact Hchain.
Defined.

(** ** The cleaning stage *)

(** The days between two dates whose midnights are timestamps. *)
Lemma row_days_dates t o c :
  row_days (Some t) (Some o) = Ok c → c = Some (toordinal t - toordinal o).
Proof.
  unfold row_days, to_datetime_cell; simpl.
  destruct (in_timestamp_range t 0); [|done]. simpl.
  destruct (in_timestamp_range o 0); [|done]. simpl.
  unfold ts_value, epoch_ordinal, ns_per_day, int64_max.
  destruct (_ || _); [done|].
  match goal with
  | |- context [(?a =? ?b)] => destruct (Z.eqb_spec a b) as [E|_]; [lia|]
  end.
  intros [= <-]. f_equal.
  replace ((toordinal t - 719163) * 86400000000000 + 0
           - ((toordinal o - 719163) * 86400000000000 + 0))
    with ((toordinal t - toordinal o) * 86400000000000) by lia.
  apply Z.div_mul. lia.
Qed.

Lemma row_days_nat_l o c : row_days None o = Ok c → c = None.
Proof.
  unfold row_days; simpl.
  destruct (to_datetime_cell o) as [[]|]; simpl; by intros [= <-].
Qed.

Lemma row_days_nat_r t c : row_days t None = Ok c → c = None.
Proof.
  unfold row_days; simpl.
  destruct (to_datetime_cell t) as [[]|]; simpl; by intros [= <-].
Qed.

Section CleaningFacts.
Variable to_datetime_coerce : pyval → Timestamp.

Lemma computable_dates r :
  computable to_datetime_coerce r = true
  ↔ ∃ t o, retract_date to_datetime_coerce r = Some t
           ∧ original_date to_datetime_coerce r = Some o.
Proof.
  unfold computable, retract_date, original_date, dt_date.
  destruct (to_datetime_coerce (RetractionDate r)),
           (to_datetime_coerce (OriginalPaperDate r)); split;
    try done; try (by intros (? & ? & ? & ?)).
  intros _. by eexists _, _.
Qed.

(** On a row where line 157 does not raise, the correction time is
    [NaN] exactly when one of the dates was not read. *)
Lemma correction_time_computable r :
  subtractable to_datetime_coerce r = true →
  bool_decide (correction_time (add_date_columns to_datetime_coerce r) = None)
  = negb (computable to_datetime_coerce r).
Proof.
  unfold subtractable, add_date_columns; simpl.
  destruct (row_days _ _) as [c|] eqn:E; [intros _|done]. simpl.
  destruct (computable to_datetime_coerce r) eqn:C; simpl.
  - apply computable_dates in C as (t & o & Ht & Ho).
    rewrite Ht, Ho in E. by rewrite (row_days_dates _ _ _ E).
  - apply bool_decide_eq_true.
    destruct (retract_date to_datetime_coerce r) as [t|] eqn:Ht;
      [|by apply row_days_nat_l in E].
    destruct (original_date to_datetime_coerce r) as [o|] eqn:Ho;
      [|by apply row_days_nat_r in E].
    assert (computable to_datetime_coerce r = true) as C'
      by (apply computable_dates; eauto).
    by rewrite C' in C.
Qed.

(** The three passes of line 157 over the columns return exactly when
    every row is subtractable, and then give each row its own days. *)
Lemma days_between_returned df :
  returned (days_between (retract_date to_datetime_coerce <$> df)
              (original_date to_datetime_coerce <$> df)) =
  if forallb (subtractable to_datetime_coerce) df
  then Some ((fun r => correction_time
                         (add_date_columns to_datetime_coerce r)) <$> df)
  else None.
Proof.
  induction df as [|r df IH]; [done|].
  revert IH. unfold days_between, subtractable at 2, add_date_columns at 2,
    row_days. rewrite !fmap_cons. cbn [mapM forallb correction_time].
  destruct (to_datetime_cell (retract_date to_datetime_coerce r)) as [a|];
    simpl; [|done].
  destruct (mapM to_datetime_cell (retract_date to_datetime_coerce <$> df))
    as [ra|]; simpl.
  2: { destruct (forallb _ df); [done|]. intros _. by rewrite andb_false_r. }
  destruct (to_datetime_cell (original_date to_datetime_coerce r)) as [b|];
    simpl; [|done].
  destruct (mapM to_datetime_cell (original_date to_datetime_coerce <$> df))
    as [oa|]; simpl.
  2: { destruct (forallb _ df); [done|]. intros _. by rewrite andb_false_r. }
  destruct (timedelta_days a b) as [c|]; simpl; [|done].
  destruct (mapM _ (zip ra oa)) as [cs|]; simpl;
    destruct (forallb _ df); try done.
  by intros [= ->].
Qed.

Lemma with_date_columns_rows df :
  with_date_columns df
    (original_date to_datetime_coerce <$> df)
    (retract_date to_datetime_coerce <$> df)
    ((fun r => correction_time (add_date_columns to_datetime_coerce r))
     <$> df)
  = add_date_columns to_datetime_coerce <$> df.
Proof.
  unfold with_date_columns.
  induction df as [|r df IH]; [done|].
  rewrite !fmap_cons. cbn [zip zip_with]. by rewrite IH.
Qed.

Lemma dropna_rows df :
  forallb (subtractable to_datetime_coerce) df = true →
  dropna (fun r => pd_isna (OriginalPaperDOI (input r)))
    (dropna (fun r => bool_decide (correction_time r = None))
       (add_date_columns to_datetime_coerce <$> df))
  = add_date_columns to_datetime_coerce
    <$> List.filter (fun r => computable to_datetime_coerce r && has_doi r) df.
Proof.
  unfold dropna, has_doi.
  induction df as [|r df IH]; [done|].
  cbn [forallb]. intros [Hr Hdf]%andb_prop.
  rewrite fmap_cons. cbn [List.filter].
  rewrite (correction_time_computable r Hr), negb_involutive.
  destruct (computable to_datetime_coerce r); cbn [List.filter andb];
    [|exact (IH Hdf)].
  change (input (add_date_columns to_datetime_coerce r)) with r.
  destruct (pd_isna (OriginalPaperDOI r)); cbn [negb];
    [exact (IH Hdf)|by rewrite fmap_cons, (IH Hdf)].
Qed.

(** What the stage does: it raises before logging anything when some
    row is not subtractable, and otherwise returns the rows that are
    computable and have a DOI, after its two log lines. *)
Lemma cleaning_run df :
  run (cleaning to_datetime_coerce df) =
  match days_between (retract_date to_datetime_coerce <$> df)
          (original_date to_datetime_coerce <$> df) with
  | Raise e => (Raise e, [])
  | Ok days =>
      let df1 :=
        dropna (fun r => bool_decide (correction_time r = None))
          (with_date_columns df (original_date to_datetime_coerce <$> df)
             (retract_date to_datetime_coerce <$> df) days) in
      let df2 :=
        dropna (fun r => pd_isna (OriginalPaperDOI (input r))) df1 in
      (Ok df2,
       [LogInfo ("Number of rows after dropping correction time NaNs: "
                 +:+ pretty (length df1));
        LogInfo ("Number of rows after dropping DOI NaNs: "
                 +:+ pretty (length df2))])
  end.
Proof.
  unfold run, cleaning, lift, emit.
  unfold mbind at 1, IO_bind.
  by destruct (days_between _ _).
Qed.

Lemma cleaning_returns df :
  forallb (subtractable to_datetime_coerce) df = true →
  ∃ tr,
    run (cleaning to_datetime_coerce df)
    = (Ok (add_date_columns to_datetime_coerce
           <$> List.filter (fun r => computable to_datetime_coerce r
                                     && has_doi r) df), tr)
    ∧ last (log_lines tr)
      = Some ("Number of rows after dropping DOI NaNs: "
              +:+ pretty (length (List.filter
                                    (fun r => computable to_datetime_coerce r
                                              && has_doi r) df))).
Proof.
  intros Hall. rewrite cleaning_run.
  pose proof (days_between_returned df) as Hd. rewrite Hall in Hd.
  apply returned_Some in Hd. rewrite Hd. cbv zeta.
  rewrite with_date_columns_rows, (dropna_rows df Hall).
  eexists. split; [reflexivity|]. simpl. by rewrite length_fmap.
Qed.

Lemma cleaning_raises df :
  forallb (subtractable to_datetime_coerce) df = false →
  ∃ e, run (cleaning to_datetime_coerce df) = (Raise e, []).
Proof.
  intros Hall. rewrite cleaning_run.
  pose proof (days_between_returned df) as Hd. rewrite Hall in Hd.
  apply returned_None in Hd as [e ->]. by exists e.
Qed.
End CleaningFacts.




(** ** The scenarios of the specification, evaluated *)

Example partition_skips_year_only :
  count_citations iso_to_datetime [cite "2020"; cite "2021-05-02"]
    (PDate (Date 2021 1 1)) = Ok {| before := 0; after := 1 |}.
Proof. reflexivity. Qed.

Example end_to_end_counts :
  count_citations iso_to_datetime
    [cite "2019-06-01"; cite "2021-01-01"; cite "2020-06-15"]
    (PDate (Date 2020 6 15)) = Ok {| before := 1; after := 1 |}.
Proof. reflexivity. Qed.

Example end_to_end_correction_time :
  days_between [Some (Date 2020 6 15)] [Some (Date 2019 1 1)] = Ok [Some 531].
Proof. reflexivity. Qed.

Example year_month_is_first_of_month :
  standardize_date (PyStr "2020-06") = Ok (Some "2020-06-01").
Proof. reflexivity. Qed.

Example process_counts_equal_date_as_after :
  (run (process_citation_counts
          [cite "2019-06-01"; cite "2021-01-01"; cite "2020-06-15"]
          (PDate (Date 2020 6 15)))).1 = Ok (NpInt 1, NpInt 2).
Proof. reflexivity. Qed.

(** * Further properties of the code *)

(** ** count_citations: how the loop composes *)

Section CountCitationsCompose.
Variable to_datetime : string → result Timestamp.

(** The loop reads an entry only through [entry_timestamp]. *)
Lemma count_loop_cons target c rest b a :
  count_loop to_datetime target (c :: rest) b a =
  ots ← entry_timestamp to_datetime c;
  match ots with
  | None => count_loop to_datetime target rest b a
  | Some ts =>
      lt ← ts_lt ts target;
      if lt : bool then count_loop to_datetime target rest (S b) a
      else gt ← ts_gt ts target;
           if gt : bool then count_loop to_datetime target rest b (S a)
           else count_loop to_datetime target rest b a
  end.
Proof.
  simpl. unfold entry_timestamp.
  destruct (getitem c "creation") as [v|e]; simpl; [|done].
  destruct (standardize_date v) as [[s|]|e]; simpl; try done.
  by destruct (to_datetime s).
Qed.

(** The counters the loop starts from are added to what it counts. *)
Lemma count_loop_acc target citations b a :
  count_loop to_datetime target citations b a =
  r ← count_loop to_datetime target citations 0 0;
  Ok {| before := b + before r; after := a + after r |}.
Proof.
  revert b a. induction citations as [|c rest IH]; intros b a.
  { simpl. by rewrite !Nat.add_0_r. }
  rewrite !count_loop_cons.
  destruct (entry_timestamp to_datetime c) as [[ts|]|e]; simpl;
    [|apply IH|done].
  destruct (ts_lt ts target) as [[|]|e]; simpl; [| |done].
  - rewrite (IH (S b) a), (IH 1%nat 0%nat).
    destruct (count_loop to_datetime target rest 0 0); simpl; [|done].
    f_equal. f_equal; lia.
  - destruct (ts_gt ts target) as [[|]|e]; simpl; [| |done].
    + rewrite (IH b (S a)), (IH 0%nat 1%nat).
      destruct (count_loop to_datetime target rest 0 0); simpl; [|done].
      f_equal. f_equal; lia.
    + apply IH.
Qed.

Lemma count_loop_app target l1 l2 b a :
  count_loop to_datetime target (l1 ++ l2) b a =
  r ← count_loop to_datetime target l1 b a;
  count_loop to_datetime target l2 (before r) (after r).
Proof.
  revert b a. induction l1 as [|c rest IH]; intros b a; [done|].
  rewrite <- app_comm_cons, !count_loop_cons.
  destruct (entry_timestamp to_datetime c) as [[ts|]|e]; simpl;
    [|apply IH|done].
  destruct (ts_lt ts target) as [[|]|e]; simpl; [apply IH| |done].
  destruct (ts_gt ts target) as [[|]|e]; simpl; [apply IH|apply IH|done].
Qed.

(** Two entries that the loop reads alike can stand for each other,
    anywhere in the list. *)
Lemma count_citations_replace target l1 c c' l2 :
  entry_timestamp to_datetime c = entry_timestamp to_datetime c' →
  count_citations to_datetime (l1 ++ c :: l2) target
  = count_citations to_datetime (l1 ++ c' :: l2) target.
Proof.
  intros H. unfold count_citations.
  destruct (to_datetime_obj target) as [t|e]; [|done].
  change (count_loop to_datetime t (l1 ++ c :: l2) 0 0
          = count_loop to_datetime t (l1 ++ c' :: l2) 0 0).
  rewrite !count_loop_app.
  destruct (count_loop _ _ l1 _ _) as [r|e]; [|done].
  change (count_loop to_datetime t (c :: l2) (before r) (after r)
          = count_loop to_datetime t (c' :: l2) (before r) (after r)).
  by rewrite !count_loop_cons, H.
Qed.
End CountCitationsCompose.

(** X1. Counting a concatenation is counting the two parts and adding
    the counts; an exception of the first part, else of the second, is
    the exception of the whole. *)
Theorem count_citations_app
    (to_datetime : string → result Timestamp)
    (l1 l2 : list pydict) (target_date : pydate) :
  count_citations to_datetime (l1 ++ l2) target_date =
  r1 ← count_citations to_datetime l1 target_date;
  r2 ← count_citations to_datetime l2 target_date;
  Ok {| before := before r1 + before r2; after := after r1 + after r2 |}.
Proof.
  unfold count_citations.
  destruct (to_datetime_obj target_date) as [t|e]; [|done].
  change (count_loop to_datetime t (l1 ++ l2) 0 0
          = r1 ← count_loop to_datetime t l1 0 0;
            r2 ← count_loop to_datetime t l2 0 0;
            Ok {| before := before r1 + before r2;
                  after := after r1 + after r2 |}).
  rewrite count_loop_app.
  destruct (count_loop _ _ l1 _ _) as [r1|e]; simpl; [|done].
  by rewrite count_loop_acc.
Qed.

Lemma disjoint_filters_length {A} (p q : A → bool) (l : list A) :
  (∀ x, p x = true → q x = false) →
  (length (List.filter p l) + length (List.filter q l) ≤ length l)%nat.
Proof.
  intros Hpq. induction l as [|x l IH]; simpl; [done|].
  destruct (p x) eqn:Hp; simpl.
  - rewrite (Hpq x Hp). lia.
  - destruct (q x); simpl; lia.
Qed.

Lemma strictly_earlier_not_later to_datetime target c :
  strictly_earlier to_datetime target c = true →
  strictly_later to_datetime target c = false.
Proof.
  unfold strictly_earlier, strictly_later, ts_gt.
  destruct (creation_timestamp to_datetime c) as [ts|]; [|done].
  destruct (to_datetime_obj target) as [t|]; [|done].
  destruct (ts_lt ts t) as [[|]|e] eqn:E; try done.
  by rewrite (ts_lt_asym _ _ E).
Qed.

(** X2. When [count_citations] returns, no entry is counted twice: the
    two counts together do not exceed the number of entries. *)
Theorem count_citations_bounded
    (to_datetime : string → result Timestamp)
    (citations : list pydict) (target_date : pydate) (r : counts) :
  count_citations to_datetime citations target_date = Ok r →
  (before r + after r ≤ length citations)%nat.
Proof.
  intros Hr%returned_Some. rewrite count_citations_returned in Hr.
  destruct (representable _ && forallb _ citations); [|done].
  injection Hr as <-. simpl.
  apply disjoint_filters_length, strictly_earlier_not_later.
Qed.

Lemma count_citations_bounded_witness :
  count_citations iso_to_datetime
    [cite "2019-06-01"; cite "2021-01-01"; cite "2020-06-15"; cite "2020"]
    (PDate (Date 2020 6 15)) = Ok {| before := 1; after := 1 |}
  ∧ (1 + 1 ≤ 4)%nat.
Proof.
  split; [reflexivity|].
  exact (count_citations_bounded iso_to_datetime
           [cite "2019-06-01"; cite "2021-01-01"; cite "2020-06-15";
            cite "2020"]
           (PDate (Date 2020 6 15)) {| before := 1; after := 1 |} eq_refl).
Defined.

(** ** standardize_date: what a known date looks like *)

(** X3. A date that [standardize_date] returns as known always has
    exactly three components, and normalising it again returns it
    unchanged. *)
Theorem standardize_date_stable (v : pyval) (s' : string) :
  standardize_date v = Ok (Some s') →
  length (str_split hyphen s') = 3%nat
  ∧ standardize_date (PyStr s') = Ok (Some s').
Proof.
  destruct v as [ | | |z|s|d]; try done.
  rewrite standardize_date_str, str_split_length.
  destruct (str_count hyphen s) as [|[|[|n]]] eqn:E; try done;
    intros [= <-]; rewrite standardize_date_str.
  - rewrite str_count_app, E. done.
  - by rewrite E.
Qed.

Lemma standardize_date_stable_witness :
  standardize_date (PyStr "2020-06") = Ok (Some "2020-06-01")
  ∧ length (str_split hyphen "2020-06-01") = 3%nat
  ∧ standardize_date (PyStr "2020-06-01") = Ok (Some "2020-06-01").
Proof.
  split; [reflexivity|].
  exact (standardize_date_stable (PyStr "2020-06") "2020-06-01" eq_refl).
Defined.

(** ** count_citations: what an entry contributes *)

Lemma entry_timestamp_creation to_datetime c c' :
  c !! "creation" = c' !! "creation" →
  entry_timestamp to_datetime c = entry_timestamp to_datetime c'.
Proof. unfold entry_timestamp, getitem. by intros ->. Qed.

(** X4. [count_citations] reads nothing of an entry but its [creation]
    value: two lists whose entries have, position by position, the same
    creation value give the same result. *)
Theorem count_citations_reads_creation_only
    (to_datetime : string → result Timestamp)
    (l l' : list pydict) (target_date : pydate) :
  (fun c : pydict => c !! "creation") <$> l
  = (fun c : pydict => c !! "creation") <$> l' →
  count_citations to_datetime l target_date
  = count_citations to_datetime l' target_date.
Proof.
  intros H. unfold count_citations.
  destruct (to_datetime_obj target_date) as [t|e]; [|done].
  change (count_loop to_datetime t l 0 0 = count_loop to_datetime t l' 0 0).
  generalize 0%nat at 1 3. generalize 0%nat.
  revert l' H. induction l as [|c l IH]; intros [|c' l'] H a b;
    try discriminate; [done|].
  rewrite !fmap_cons in H. injection H as Hc Hl.
  rewrite !count_loop_cons, (entry_timestamp_creation _ c c' Hc).
  destruct (entry_timestamp to_datetime c') as [[ts|]|e]; simpl;
    [|by apply IH|done].
  destruct (ts_lt ts _) as [[|]|e]; simpl; [by apply IH| |done].
  destruct (ts_gt ts _) as [[|]|e]; simpl; [by apply IH|by apply IH|done].
Qed.

Lemma count_citations_reads_creation_only_witness :
  (fun c : pydict => c !! "creation")
    <$> [<["oci" := PyStr "1-2"]> (cite "2019-06-01")]
  = (fun c : pydict => c !! "creation") <$> [cite "2019-06-01"]
  ∧ count_citations iso_to_datetime
      [<["oci" := PyStr "1-2"]> (cite "2019-06-01")] (PDate (Date 2020 6 15))
    = Ok {| before := 1; after := 0 |}.
Proof.
  split; [reflexivity|].
  transitivity (count_citations iso_to_datetime [cite "2019-06-01"]
                  (PDate (Date 2020 6 15))); [|reflexivity].
  apply count_citations_reads_creation_only. reflexivity.
Defined.

(** X5. An entry whose normalised creation date is unknown changes
    nothing: with it or without it, anywhere in the list, the result is
    the same. *)
Theorem count_citations_skips_unknown
    (to_datetime : string → result Timestamp)
    (l1 l2 : list pydict) (c : pydict) (target_date : pydate) :
  unknown_date c →
  count_citations to_datetime (l1 ++ c :: l2) target_date
  = count_citations to_datetime (l1 ++ l2) target_date.
Proof.
  intros (v & Hv & Hn). unfold count_citations.
  destruct (to_datetime_obj target_date) as [t|e]; [|done].
  change (count_loop to_datetime t (l1 ++ c :: l2) 0 0
          = count_loop to_datetime t (l1 ++ l2) 0 0).
  rewrite !count_loop_app.
  destruct (count_loop _ _ l1 _ _) as [r|e]; [|done].
  change (count_loop to_datetime t (c :: l2) (before r) (after r)
          = count_loop to_datetime t l2 (before r) (after r)).
  rewrite count_loop_cons. unfold entry_timestamp, getitem.
  by rewrite Hv; simpl; rewrite Hn.
Qed.

Lemma count_citations_skips_unknown_witness :
  unknown_date (cite "2020")
  ∧ count_citations iso_to_datetime
      ([cite "2019-06-01"] ++ cite "2020" :: [cite "2021-01-01"])
      (PDate (Date 2020 6 15))
    = Ok {| before := 1; after := 1 |}.
Proof.
  assert (unknown_date (cite "2020")) as Hu.
  { exists (PyStr "2020"). split; reflexivity. }
  split; [exact Hu|].
  rewrite (count_citations_skips_unknown iso_to_datetime
             [cite "2019-06-01"] [cite "2021-01-01"] (cite "2020")
             (PDate (Date 2020 6 15)) Hu).
  reflexivity.
Defined.

(** X6. A creation string of two components counts as the same string
    with "-01" appended: a year and month is placed on the first day of
    the month, whatever [pd.to_datetime] makes of it. *)
Theorem count_citations_year_month
    (to_datetime : string → result Timestamp)
    (l1 l2 : list pydict) (c c' : pydict) (s : string)
    (target_date : pydate) :
  length (str_split hyphen s) = 2%nat →
  c !! "creation" = Some (PyStr s) →
  c' !! "creation" = Some (PyStr (s +:+ "-01")) →
  count_citations to_datetime (l1 ++ c :: l2) target_date
  = count_citations to_datetime (l1 ++ c' :: l2) target_date.
Proof.
  rewrite str_split_length. intros [= Hs] Hc Hc'.
  apply count_citations_replace.
  unfold entry_timestamp, getitem. rewrite Hc, Hc'; simpl.
  rewrite !standardize_date_str, str_count_app, Hs. done.
Qed.

Lemma count_citations_year_month_witness :
  length (str_split hyphen "2020-06") = 2%nat
  ∧ cite "2020-06" !! "creation" = Some (PyStr "2020-06")
  ∧ cite "2020-06-01" !! "creation" = Some (PyStr ("2020-06" +:+ "-01"))
  ∧ count_citations iso_to_datetime ([] ++ cite "2020-06" :: [])
      (PDate (Date 2020 6 15))
    = Ok {| before := 1; after := 0 |}.
Proof.
  do 3 (split; [reflexivity|]).
  transitivity (count_citations iso_to_datetime
                  ([] ++ cite "2020-06-01" :: []) (PDate (Date 2020 6 15)));
    [|reflexivity].
  by apply (count_citations_year_month iso_to_datetime [] []
              (cite "2020-06") (cite "2020-06-01") "2020-06").
Defined.

(** ** read_csv_robust: when the file cannot be sampled *)

(** X7. The encoding detection is outside every [try]: when the file
    cannot be opened or sampled, [read_csv_robust] raises that very
    exception, without any attempt to parse and without printing. *)
Theorem read_csv_robust_detection_raises
    (table : Type)
    (sample_and_detect : string → Z → result (option string))
    (pd_read_csv : string → option string → string → result table)
    (file_path sep : string) (num_bytes : Z) (e : exn) :
  sample_and_detect file_path num_bytes = Raise e →
  run (read_csv_robust table sample_and_detect pd_read_csv
         file_path sep num_bytes)
  = (Raise e, [Detect file_path num_bytes]).
Proof.
  intros H. unfold run, read_csv_robust, detect_encoding, call.
  unfold mbind, IO_bind. by rewrite H.
Qed.

Lemma read_csv_robust_detection_raises_witness :
  detect_no_file "retractions.csv" 10000 = Raise OSError
  ∧ run (read_csv_robust (list input_row) detect_no_file read_nothing
           "retractions.csv" "," 10000)
    = (Raise OSError, [Detect "retractions.csv" 10000]).
Proof.
  split; [reflexivity|].
  exact (read_csv_robust_detection_raises (list input_row) detect_no_file
           read_nothing "retractions.csv" "," 10000 OSError eq_refl).
Defined.

(** ** fetch_citations: the request and the log *)

(** What one call does, by the answer of the service. *)
Lemma fetch_citations_run requests_get doi :
  run (fetch_citations requests_get doi) =
  match requests_get (citations_url doi) accept_json with
  | Raise e =>
      (Ok [],
       [HttpGet (citations_url doi);
        LogInfo ("Exception when fetching citations for DOI "
                 +:+ doi +:+ ": " +:+ str_exn e)])
  | Ok response =>
      if status_code response =? 200
      then match json response with
           | Ok parsed =>
               (Ok parsed,
                [HttpGet (citations_url doi);
                 LogInfo ("Successfully fetched citations for DOI " +:+ doi)])
           | Raise e =>
               (Ok [],
                [HttpGet (citations_url doi);
                 LogInfo ("Successfully fetched citations for DOI " +:+ doi);
                 LogInfo ("Exception when fetching citations for DOI "
                          +:+ doi +:+ ": " +:+ str_exn e)])
           end
      else (Ok [], [HttpGet (citations_url doi)])
  end.
Proof.
  unfold run, fetch_citations, try_except, call, emit, lift; simpl.
  unfold mbind, IO_bind, mret, IO_ret; simpl.
  destruct (requests_get _ _) as [resp|e]; simpl; [|done].
  destruct (status_code resp =? 200); simpl; [|done].
  by destruct (json resp).
Qed.

(** X8. [fetch_citations] makes exactly one request, to the URL of the
    identifier, and never a second one, whatever the answer.  An answer
    with a status other than 200 leaves no line in the log; and the line
    "Successfully fetched" is logged before the body is parsed, so it is
    in the log also when parsing the body raises and [[]] is returned. *)
Theorem fetch_citations_single_request
    (requests_get : string → list (string * string) → result response)
    (doi : string) :
  ∃ citations tr,
    run (fetch_citations requests_get doi) = (Ok citations, tr)
    ∧ requests_made tr = [citations_url doi]
    ∧ (∀ response,
         requests_get (citations_url doi) accept_json = Ok response →
         (status_code response ≠ 200 → log_lines tr = [])
         ∧ (status_code response = 200 →
            head (log_lines tr)
            = Some ("Successfully fetched citations for DOI " +:+ doi)
            ∧ (returned (json response) = None → citations = []))).
Proof.
  rewrite fetch_citations_run.
  destruct (requests_get _ _) as [resp|e]; [|by eexists _, _].
  destruct (status_code resp =? 200) eqn:E.
  - apply Z.eqb_eq in E.
    destruct (json resp) eqn:J; eexists _, _; (split; [reflexivity|]);
      (split; [reflexivity|]); intros ? [= <-]; (split; [done|]);
      intros _; split; try done; by rewrite J.
  - apply Z.eqb_neq in E.
    eexists _, _; (split; [reflexivity|]); (split; [reflexivity|]).
    by intros ? [= <-].
Qed.

(** X9. A failed fetch gives zero counts: when the request raises or the
    status is not 200, [count_citations] on what [fetch_citations]
    returns is [{before: 0, after: 0}], for every target date that
    [pd.to_datetime] turns into a timestamp. *)
Theorem failed_fetch_counts_nothing
    (requests_get : string → list (string * string) → result response)
    (to_datetime : string → result Timestamp)
    (doi : string) (target_date : pydate) :
  (∀ response,
     requests_get (citations_url doi) accept_json = Ok response →
     status_code response ≠ 200) →
  representable target_date = true →
  ∃ citations tr,
    run (fetch_citations requests_get doi) = (Ok citations, tr)
    ∧ count_citations to_datetime citations target_date
      = Ok {| before := 0; after := 0 |}.
Proof.
  intros H Hrep.
  assert (count_citations to_datetime [] target_date
          = Ok {| before := 0; after := 0 |}) as Hzero.
  { unfold count_citations, representable in *.
    by destruct (to_datetime_obj target_date). }
  rewrite fetch_citations_run.
  destruct (requests_get _ _) as [resp|e]; [|by eexists _, _].
  specialize (H resp eq_refl). apply Z.eqb_neq in H. rewrite H.
  by eexists _, _.
Qed.

Lemma failed_fetch_counts_nothing_witness :
  (∀ response,
     service_404 (citations_url "10.1/x") accept_json = Ok response →
     status_code response ≠ 200)
  ∧ representable (PDate (Date 2020 6 15)) = true
  ∧ ∃ citations tr,
      run (fetch_citations service_404 "10.1/x") = (Ok citations, tr)
      ∧ count_citations iso_to_datetime citations (PDate (Date 2020 6 15))
        = Ok {| before := 0; after := 0 |}.
Proof.
  assert (∀ response,
            service_404 (citations_url "10.1/x") accept_json = Ok response →
            status_code response ≠ 200) as H.
  { intros response [= <-]. simpl. lia. }
  split; [exact H|]. split; [reflexivity|].
  exact (failed_fetch_counts_nothing service_404 iso_to_datetime "10.1/x"
           (PDate (Date 2020 6 15)) H eq_refl).
Defined.

(** ** process_citation_counts: every entry is counted once, or none *)

Lemma creation_dates_length citations ds :
  mapM (fun citation : pydict => v ← getitem citation "creation";
                                 strptime_date v) citations = Ok ds →
  length ds = length citations.
Proof.
  revert ds. induction citations as [|c rest IH]; intros ds; simpl.
  { by intros [= <-]. }
  destruct (getitem c "creation" ≫= _) as [d|e]; simpl; [|done].
  destruct (mapM _ rest) as [ds'|e]; simpl; [|done].
  intros [= <-]. simpl. by rewrite (IH ds').
Qed.

Lemma creation_dates_ok citations :
  existsb not_full_date citations = false →
  ∃ ds, mapM (fun citation : pydict => v ← getitem citation "creation";
                                       strptime_date v) citations = Ok ds.
Proof.
  induction citations as [|c rest IH]; simpl; [by exists []|].
  intros [Hc Hrest]%orb_false_elim. destruct (IH Hrest) as [ds Hds].
  unfold not_full_date, creation_full_date in Hc.
  destruct (c !! "creation") as [v|] eqn:Hv; simpl in Hc; [|done].
  assert (getitem c "creation" = Ok v) as ->.
  { unfold getitem. by rewrite Hv. }
  simpl. destruct (strptime_date v) as [d|e]; simpl in *; [|done].
  rewrite Hds. by eexists.
Qed.

Lemma complementary_filters_length {A} (p : A → bool) (l : list A) :
  (length (List.filter p l) + length (List.filter (fun x => negb (p x)) l)
   = length l)%nat.
Proof.
  induction l as [|x l IH]; simpl; [done|].
  destruct (p x); simpl; lia.
Qed.

(** X10. [process_citation_counts] never raises.  When some entry lacks
    a creation value or has one that is no full date, it prints one
    error line and returns [(NaN, NaN)]; otherwise it prints nothing and
    returns two integer counts that add up to the number of entries:
    every entry is counted exactly once, before or on-or-after. *)
Theorem process_citation_counts_partition
    (citations : list pydict) (retraction_date : pydate) :
  ∃ p tr,
    run (process_citation_counts citations retraction_date) = (Ok p, tr)
    ∧ if existsb not_full_date citations
      then p = (NpNaN, NpNaN) ∧ ∃ e, tr = [Print ("ERROR: " +:+ str_exn e)]
      else ∃ pre post,
             p = (NpInt pre, NpInt post)
             ∧ (pre + post = length citations)%nat
             ∧ tr = [].
Proof.
  unfold run, process_citation_counts, try_except, lift, emit; simpl.
  unfold mbind at 1, IO_bind.
  destruct (existsb not_full_date citations) eqn:E.
  - destruct (creation_dates_raise citations E) as [e ->]. simpl.
    eexists _, _. split; [reflexivity|]. split; [done|]. by exists e.
  - destruct (creation_dates_ok citations E) as [ds Hds]. rewrite Hds. simpl.
    eexists _, _. split; [reflexivity|]. eexists _, _. split; [done|].
    split; [|done].
    unfold np_sum_where, date_geb.
    by rewrite complementary_filters_length, (creation_dates_length _ _ Hds).
Qed.

(** ** The cleaning stage: what the rows that go on carry *)

(** X11. Whenever the cleaning stage returns, every row it returns has
    both dates, a correction time that is the number of days from the
    original date to the retraction date, and a DOI that is not missing;
    the stage drops rows only (it returns at most as many rows as it
    got), and the last line it logs gives the number of rows it
    returns. *)
Theorem cleaning_rows_are_complete
    (to_datetime_coerce : pyval → Timestamp) (df : list input_row)
    (out : list row) (tr : list event) :
  run (cleaning to_datetime_coerce df) = (Ok out, tr) →
  Forall (fun r =>
            ∃ o t, original r = Some o
                   ∧ retract r = Some t
                   ∧ correction_time r = Some (toordinal t - toordinal o)
                   ∧ pd_isna (OriginalPaperDOI (input r)) = false) out
  ∧ (length out ≤ length df)%nat
  ∧ last (log_lines tr)
    = Some ("Number of rows after dropping DOI NaNs: "
            +:+ pretty (length out)).
Proof.
  intros Hrun.
  destruct (forallb (subtractable to_datetime_coerce) df) eqn:Hall.
  2: { destruct (cleaning_raises to_datetime_coerce df Hall) as [e He].
       by rewrite He in Hrun. }
  destruct (cleaning_returns to_datetime_coerce df Hall) as (tr' & Hrun' & Hlog).
  rewrite Hrun' in Hrun. injection Hrun as <- <-.
  split; [|split].
  - apply Forall_fmap, Forall_forall. intros r Hr.
    apply list_elem_of_In, filter_In in Hr as [Hin Hr].
    apply andb_prop in Hr as [Hc Hdoi]. simpl.
    assert (subtractable to_datetime_coerce r = true) as Hs.
    { rewrite forallb_forall in Hall. by apply Hall. }
    apply computable_dates in Hc as (t & o & Ht & Ho).
    unfold subtractable in Hs. rewrite Ht, Ho in *.
    destruct (row_days (Some t) (Some o)) as [c|] eqn:E; [|done].
    apply row_days_dates in E as ->. exists o, t. repeat split; try done.
    unfold has_doi in Hdoi. by destruct (pd_isna _).
  - rewrite length_fmap. apply List.filter_length_le.
  - by rewrite length_fmap.
Qed.

Lemma cleaning_rows_are_complete_witness :
  ∃ out tr,
    run (cleaning coerce_iso rows_in_reach) = (Ok out, tr)
    ∧ Forall (fun r =>
                ∃ o t, original r = Some o
                       ∧ retract r = Some t
                       ∧ correction_time r
                         = Some (toordinal t - toordinal o)
                       ∧ pd_isna (OriginalPaperDOI (input r)) = false) out
    ∧ (length out ≤ 3)%nat.
Proof.
  destruct (run (cleaning coerce_iso rows_in_reach)) as [[out|e] tr] eqn:E;
    [|discriminate E].
  exists out, tr. split; [reflexivity|].
  destruct (cleaning_rows_are_complete coerce_iso rows_in_reach out tr E)
    as (Hall & Hlen & _).
  split; [exact Hall|exact Hlen].
Defined.

(** ** Loading *)

(** What [read_csv_robust] does once the encoding is detected: its
    result, and the encodings it tried. *)
Lemma read_csv_robust_detected
    (table : Type) sample_and_detect
    (pd_read_csv : string → option string → string → result table)
    file_path sep num_bytes enc :
  sample_and_detect file_path num_bytes = Ok enc →
  ∃ df tr,
    run (read_csv_robust table sample_and_detect pd_read_csv
           file_path sep num_bytes) = (Ok df, tr)
    ∧ log_lines tr = []
    ∧ match pd_read_csv file_path enc sep with
      | Ok t => df = Some t ∧ attempts tr = [enc]
      | Raise _ =>
          match pd_read_csv file_path (Some "utf-8") sep with
          | Ok t => df = Some t ∧ attempts tr = [enc; Some "utf-8"]
          | Raise _ =>
              attempts tr = [enc; Some "utf-8"; Some "ISO-8859-1"]
              ∧ match pd_read_csv file_path (Some "ISO-8859-1") sep with
                | Ok t => df = Some t
                | Raise _ => df = None
                end
          end
      end.
Proof.
  intros Hdetect.
  unfold run, read_csv_robust, detect_encoding, read_csv, try_except, call,
    emit; simpl.
  unfold mbind, IO_bind, mret, IO_ret; simpl. rewrite Hdetect; simpl.
  destruct (pd_read_csv file_path enc sep); simpl; [by eexists _, _|].
  destruct (pd_read_csv file_path (Some "utf-8") sep); simpl;
    [by eexists _, _|].
  destruct (pd_read_csv file_path (Some "ISO-8859-1") sep); simpl;
    by eexists _, _.
Qed.

Lemma loading_after_read sample_and_detect pd_read_csv df tr :
  run (read_csv_robust (list input_row) sample_and_detect pd_read_csv
         "retractions.csv" "," 10000) = (Ok df, tr) →
  run (loading sample_and_detect pd_read_csv) =
  match df with
  | Some rows =>
      (Ok (Some rows),
       tr ++ [LogInfo ("Total number of rows: " +:+ pretty (length rows))])
  | None => (Raise TypeError, tr)
  end.
Proof.
  unfold run, loading. intros H.
  unfold mbind at 1, IO_bind. rewrite H.
  by destruct df.
Qed.

(** X12. When the file is sampled but none of the three encodings
    parses it, the loading stage raises [TypeError]: the [None] that
    [read_csv_robust] returns has no length.  The three attempts were
    made and nothing was logged. *)
Theorem loading_fatal_when_unreadable
    (sample_and_detect : string → Z → result (option string))
    (pd_read_csv : string → option string → string → result (list input_row))
    (enc : option string) :
  sample_and_detect "retractions.csv" 10000 = Ok enc →
  returned (pd_read_csv "retractions.csv" enc ",") = None →
  returned (pd_read_csv "retractions.csv" (Some "utf-8") ",") = None →
  returned (pd_read_csv "retractions.csv" (Some "ISO-8859-1") ",") = None →
  ∃ tr,
    run (loading sample_and_detect pd_read_csv) = (Raise TypeError, tr)
    ∧ attempts tr = [enc; Some "utf-8"; Some "ISO-8859-1"]
    ∧ log_lines tr = [].
Proof.
  intros Hd H1 H2 H3.
  destruct (read_csv_robust_detected (list input_row) sample_and_detect
              pd_read_csv "retractions.csv" "," 10000 enc Hd)
    as (df & tr & Hrun & Hlog & Hcase).
  rewrite (loading_after_read _ _ _ _ Hrun).
  destruct (pd_read_csv "retractions.csv" enc ","); [done|].
  destruct (pd_read_csv "retractions.csv" (Some "utf-8") ","); [done|].
  destruct (pd_read_csv "retractions.csv" (Some "ISO-8859-1") ","); [done|].
  destruct Hcase as [Hatt ->]. by exists tr.
Qed.

Lemma loading_fatal_when_unreadable_witness :
  detect_cp1252 "retractions.csv" 10000 = Ok (Some "Windows-1252")
  ∧ returned (read_nothing "retractions.csv" (Some "Windows-1252") ",") = None
  ∧ returned (read_nothing "retractions.csv" (Some "utf-8") ",") = None
  ∧ returned (read_nothing "retractions.csv" (Some "ISO-8859-1") ",") = None
  ∧ ∃ tr,
      run (loading detect_cp1252 read_nothing) = (Raise TypeError, tr)
      ∧ attempts tr
        = [Some "Windows-1252"; Some "utf-8"; Some "ISO-8859-1"]
      ∧ log_lines tr = [].
Proof.
  do 4 (split; [reflexivity|]).
  exact (loading_fatal_when_unreadable detect_cp1252 read_nothing
           (Some "Windows-1252") eq_refl eq_refl eq_refl eq_refl).
Defined.

(** X13. When the loading stage returns, it returns a table, never
    [None]: the rows that one of the three parse attempts read, and the
    one line it logs gives their number. *)
Theorem loading_returns_a_table
    (sample_and_detect : string → Z → result (option string))
    (pd_read_csv : string → option string → string → result (list input_row))
    (df : option (list input_row)) (tr : list event) :
  run (loading sample_and_detect pd_read_csv) = (Ok df, tr) →
  ∃ rows encoding,
    df = Some rows
    ∧ pd_read_csv "retractions.csv" encoding "," = Ok rows
    ∧ last (attempts tr) = Some encoding
    ∧ log_lines tr = ["Total number of rows: " +:+ pretty (length rows)].
Proof.
  destruct (sample_and_detect "retractions.csv" 10000) as [enc|e] eqn:Hd.
  - destruct (read_csv_robust_detected (list input_row) sample_and_detect
                pd_read_csv "retractions.csv" "," 10000 enc Hd)
      as (df' & tr' & Hrun & Hlog & Hcase).
    rewrite (loading_after_read _ _ _ _ Hrun).
    destruct df' as [rows|]; [|done]. intros [= <- <-].
    assert (∃ encoding,
              pd_read_csv "retractions.csv" encoding "," = Ok rows
              ∧ last (attempts tr') = Some encoding) as (encoding & ? & ?).
    { destruct (pd_read_csv "retractions.csv" enc ",") eqn:E1.
      { destruct Hcase as [[= <-] ->]. by exists enc. }
      destruct (pd_read_csv "retractions.csv" (Some "utf-8") ",") eqn:E2.
      { destruct Hcase as [[= <-] ->]. by exists (Some "utf-8"). }
      destruct Hcase as [-> Hcase].
      destruct (pd_read_csv "retractions.csv" (Some "ISO-8859-1") ",") eqn:E3;
        [|done].
      injection Hcase as <-. by exists (Some "ISO-8859-1"). }
    exists rows, encoding. repeat split; try done.
    + unfold attempts in *. rewrite omap_app. simpl. by rewrite app_nil_r.
    + unfold log_lines in *. rewrite omap_app, Hlog. done.
  - unfold run, loading, read_csv_robust, detect_encoding, call.
    unfold mbind, IO_bind. by rewrite Hd.
Qed.

Lemma loading_returns_a_table_witness :
  ∃ tr,
    run (loading detect_cp1252 read_rows_latin1) = (Ok (Some two_rows), tr)
    ∧ log_lines tr = ["Total number of rows: 2"].
Proof.
  eexists. split; [reflexivity|].
  destruct (loading_returns_a_table detect_cp1252 read_rows_latin1 _ _
              eq_refl) as (rows & encoding & Hdf & _ & _ & Hlog).
  injection Hdf as <-. exact Hlog.
Defined.

(** ** Fetching *)

Lemma run_requests_sub evs : run_requests (Sub <$> evs) = requests_made evs.
Proof.
  unfold run_requests, requests_made.
  induction evs as [|ev evs IH]; [done|].
  destruct ev; simpl; try f_equal; exact IH.
Qed.

Lemma sleeps_sub evs : sleeps (Sub <$> evs) = 0%nat.
Proof. by induction evs. Qed.

Lemma sleeps_app tr tr' : sleeps (tr ++ tr') = (sleeps tr + sleeps tr')%nat.
Proof. unfold sleeps. by rewrite List.filter_app, length_app. Qed.

Lemma run_requests_app tr tr' :
  run_requests (tr ++ tr') = run_requests tr ++ run_requests tr'.
Proof. apply omap_app. Qed.

(** One call in the stage: it returns, and adds one request. *)
Lemma sub_fetch_citations requests_get doi tr :
  ∃ fetched evs,
    sub (fetch_citations requests_get doi) tr = (Ok fetched, tr ++ evs)
    ∧ (run (fetch_citations requests_get doi)).1 = Ok fetched
    ∧ run_requests evs = [citations_url doi]
    ∧ sleeps evs = 0%nat.
Proof.
  unfold sub. rewrite fetch_citations_run.
  destruct (requests_get _ _) as [resp|e].
  - destruct (status_code resp =? 200); [destruct (json resp)|];
      by eexists _, _.
  - by eexists _, _.
Qed.

Lemma div_50_succ c :
  ((S c) / 50 = c / 50 + (if (S c) mod 50 =? 0 then 1 else 0))%nat.
Proof.
  pose proof (Nat.div_mod_eq (S c) 50) as H1.
  pose proof (Nat.div_mod_eq c 50) as H2.
  pose proof (Nat.mod_upper_bound (S c) 50) as H3.
  pose proof (Nat.mod_upper_bound c 50) as H4.
  destruct (Nat.eqb_spec ((S c) mod 50) 0) as [E|E];
    generalize dependent ((S c) mod 50)%nat;
    generalize dependent ((S c) / 50)%nat;
    generalize dependent (c mod 50)%nat;
    generalize dependent (c / 50)%nat; intros; lia.
Qed.

(** The loop, from any state: it returns the list extended by one
    result for each identifier, after one request for each, in order,
    and as many pauses as multiples of 50 the counter passes. *)
Lemma fetch_loop_run requests_get total_n dois cites counter tr :
  ∃ fetched evs,
    fetch_loop requests_get total_n dois cites counter tr
    = (Ok (cites ++ fetched), tr ++ evs)
    ∧ Ok <$> fetched
      = (fun doi => (run (fetch_citations requests_get
                            (format_value doi))).1) <$> dois
    ∧ run_requests evs
      = (fun doi => citations_url (format_value doi)) <$> dois
    ∧ (counter / 50 + sleeps evs = (counter + length dois) / 50)%nat.
Proof.
  revert cites counter tr.
  induction dois as [|doi rest IH]; intros cites counter tr.
  { exists [], []. rewrite !app_nil_r. repeat split; try done.
    unfold sleeps. cbn [length List.filter]. by rewrite !Nat.add_0_r. }
  cbn [fetch_loop]. unfold mbind at 1, Run_bind.
  destruct (sub_fetch_citations requests_get (format_value doi) tr)
    as (one & evs1 & -> & Hone & Hreq1 & Hsl1).
  unfold log_every, sleep_every.
  set (tr2 := if (S counter mod 50 =? 0)%nat
              then (tr ++ evs1)
                   ++ [Sub (LogInfo ("Processed " +:+ pretty (S counter)
                                     +:+ " of " +:+ pretty total_n
                                     +:+ " rows")); Sleep]
              else tr ++ evs1).
  destruct (IH (cites ++ [one]) (S counter) tr2)
    as (more & evs2 & Hrun & Hmore & Hreq2 & Hsl2).
  exists (one :: more).
  exists (evs1 ++ (if (S counter mod 50 =? 0)%nat
                   then [Sub (LogInfo ("Processed " +:+ pretty (S counter)
                                       +:+ " of " +:+ pretty total_n
                                       +:+ " rows")); Sleep]
                   else []) ++ evs2).
  split; [|split; [|split]].
  - unfold mbind, Run_bind, mret, Run_ret, sub, sleep_random, run, emit.
    subst tr2. destruct (S counter mod 50 =? 0)%nat.
    all: etrans; [|etrans; [exact Hrun|]].
    all: f_equal; rewrite <- ?app_assoc; try done.
    all: f_equal; by rewrite <- ?app_assoc.
  - rewrite !fmap_cons. by rewrite Hmore, Hone.
  - rewrite !run_requests_app, Hreq1, Hreq2, fmap_cons.
    by destruct (S counter mod 50 =? 0)%nat.
  - rewrite !sleeps_app, Hsl1. simpl length.
    replace (counter + S (length rest))%nat
      with (S counter + length rest)%nat by lia.
    rewrite <- Hsl2, (div_50_succ counter).
    destruct (S counter mod 50 =? 0)%nat; unfold sleeps; simpl; lia.
Qed.

(** X14. The fetching stage never raises; it returns one list of
    citations for each row, in the order of the rows, each being what
    [fetch_citations] returns for the [OriginalPaperDOI] of that row, so
    the list fits the [cites] column; and it makes exactly one request
    for each row, in the order of the rows. *)
Theorem fetching_one_request_per_row
    (requests_get : string → list (string * string) → result response)
    (df : list row) :
  ∃ cites tr,
    fetching requests_get df [] = (Ok cites, tr)
    ∧ length cites = length df
    ∧ Ok <$> cites
      = (fun r => (run (fetch_citations requests_get
                          (format_value (OriginalPaperDOI (input r))))).1)
        <$> df
    ∧ run_requests tr
      = (fun r => citations_url (format_value (OriginalPaperDOI (input r))))
        <$> df.
Proof.
  unfold fetching. unfold mbind at 1, Run_bind.
  destruct (fetch_loop_run requests_get (length df)
              ((fun r => OriginalPaperDOI (input r)) <$> df) [] 0%nat [])
    as (cites & evs & -> & Hc & Hreq & _).
  simpl. eexists _, _. split; [reflexivity|].
  rewrite <- list_fmap_compose in Hc, Hreq.
  split; [|split].
  - apply (f_equal length) in Hc. by rewrite !length_fmap in Hc.
  - exact Hc.
  - rewrite run_requests_app, Hreq. simpl. by rewrite app_nil_r.
Qed.

(** X15. The fetching stage pauses once after every 50th request and at
    no other time: on [n] rows it pauses [n / 50] times, so not at all
    on fewer than 50 rows. *)
Theorem fetching_pauses_every_50
    (requests_get : string → list (string * string) → result response)
    (df : list row) :
  ∃ cites tr,
    fetching requests_get df [] = (Ok cites, tr)
    ∧ sleeps tr = (length df / 50)%nat.
Proof.
  unfold fetching. unfold mbind at 1, Run_bind.
  destruct (fetch_loop_run requests_get (length df)
              ((fun r => OriginalPaperDOI (input r)) <$> df) [] 0%nat [])
    as (cites & evs & -> & _ & _ & Hsl).
  simpl. eexists _, _. split; [reflexivity|].
  rewrite sleeps_app, length_fmap in *. simpl in *.
  unfold sleeps at 2. simpl. lia.
Qed.

(** ** A datetime as the target date *)

Lemma creation_dates_counts_datetime to_datetime citations d n :
  0 < n →
  representable (PDatetime d n) = true →
  forallb (full_date_entry to_datetime) citations = true →
  ∃ creation_dates,
    mapM (fun citation : pydict => v ← getitem citation "creation";
                                   strptime_date v) citations
    = Ok creation_dates
    ∧ length (List.filter (strictly_earlier to_datetime (PDatetime d n))
                citations)
      = (np_sum_where (fun x => date_ltb x d) creation_dates
         + length (List.filter (created_on d) citations))%nat
    ∧ np_sum_where (fun x => date_geb x d) creation_dates
      = (length (List.filter (strictly_later to_datetime (PDatetime d n))
                   citations)
         + length (List.filter (created_on d) citations))%nat.
Proof.
  intros Hn Hrep.
  assert (to_datetime_obj (PDatetime d n) = Ok (Ts d n false)) as Ht.
  { unfold representable in Hrep. simpl in *.
    by destruct (in_timestamp_range d n). }
  unfold np_sum_where.
  induction citations as [|c rest IH]; simpl.
  { intros _. by exists []. }
  intros [Hc Hrest]%andb_prop.
  destruct (IH Hrest) as (ds & Hds & Hlt & Hge).
  destruct (full_date_entry_inv to_datetime c Hc) as (s & dd & Hcr & Hdd & Hts).
  assert (getitem c "creation" = Ok (PyStr s)) as Hg.
  { unfold getitem. by rewrite Hcr. }
  exists (dd :: ds). rewrite Hg; simpl. rewrite Hdd; simpl. rewrite Hds.
  split; [done|].
  assert (strictly_earlier to_datetime (PDatetime d n) c
          = date_ltb dd d || date_eqb dd d) as ->.
  { unfold strictly_earlier, creation_timestamp. rewrite Ht, Hcr; simpl.
    rewrite (standardize_date_full s dd Hdd); simpl. rewrite Hts; simpl.
    assert ((0 <? n) = true) as -> by by apply Z.ltb_lt.
    by rewrite andb_true_r. }
  assert (strictly_later to_datetime (PDatetime d n) c = date_ltb d dd) as ->.
  { unfold strictly_later, creation_timestamp, ts_gt. rewrite Ht, Hcr; simpl.
    rewrite (standardize_date_full s dd Hdd); simpl. rewrite Hts; simpl.
    assert ((n <? 0) = false) as -> by (apply Z.ltb_ge; lia).
    by rewrite andb_false_r, orb_false_r. }
  assert (created_on d c = date_eqb dd d) as ->.
  { unfold created_on, creation_full_date. rewrite Hcr; simpl.
    by rewrite Hdd. }
  simpl. rewrite date_geb_split.
  destruct (date_ltb dd d) eqn:E1; simpl.
  - rewrite (date_ltb_asym _ _ E1); simpl.
    destruct (date_eqb dd d) eqn:E2; simpl.
    + apply date_eqb_eq in E2 as ->. by rewrite date_ltb_irrefl in E1.
    + split; [lia|done].
  - destruct (date_ltb d dd) eqn:E3, (date_eqb dd d) eqn:E4; simpl;
      rewrite ?Hge; try (split; lia).
    apply date_eqb_eq in E4 as ->. by rewrite date_ltb_irrefl in E3.
Qed.

(** X16. With a datetime later than midnight as the target, within the
    range of timestamps, the two counting functions differ by more than
    the treatment of equality: on entries that are all full dates,
    [count_citations] counts the entries of the target's day as before,
    and [process_citation_counts], which drops the time of day, counts
    them as after. *)
Theorem counters_differ_on_datetime
    (to_datetime : string → result Timestamp)
    (citations : list pydict) (d : date) (n : Z) :
  forallb (full_date_entry to_datetime) citations = true →
  0 < n →
  representable (PDatetime d n) = true →
  ∃ r pre post,
    count_citations to_datetime citations (PDatetime d n) = Ok r
    ∧ (run (process_citation_counts citations (PDatetime d n))).1
      = Ok (NpInt pre, NpInt post)
    ∧ before r
      = (pre + length (List.filter (created_on d) citations))%nat
    ∧ post
      = (after r + length (List.filter (created_on d) citations))%nat.
Proof.
  intros Hfull Hn Hrep.
  pose proof (count_citations_returned to_datetime (PDatetime d n) citations)
    as Hcc.
  rewrite Hrep, (full_date_entries_countable _ _ Hfull) in Hcc.
  apply returned_Some in Hcc.
  destruct (creation_dates_counts_datetime to_datetime citations d n
              Hn Hrep Hfull) as (ds & Hds & Hb & Ha).
  eexists _, _, _. split; [exact Hcc|].
  rewrite process_citation_counts_result; simpl. rewrite Hds.
  split; [reflexivity|]. split; [exact Hb|exact Ha].
Qed.

Lemma counters_differ_on_datetime_witness :
  forallb (full_date_entry iso_to_datetime)
    [cite "2019-06-01"; cite "2021-01-01"; cite "2020-06-15"] = true
  ∧ 0 < 36000000000000
  ∧ representable (PDatetime (Date 2020 6 15) 36000000000000) = true
  ∧ ∃ r pre post,
      count_citations iso_to_datetime
        [cite "2019-06-01"; cite "2021-01-01"; cite "2020-06-15"]
        (PDatetime (Date 2020 6 15) 36000000000000) = Ok r
      ∧ (run (process_citation_counts
                [cite "2019-06-01"; cite "2021-01-01"; cite "2020-06-15"]
                (PDatetime (Date 2020 6 15) 36000000000000))).1
        = Ok (NpInt pre, NpInt post)
      ∧ before r
        = (pre + length (List.filter (created_on (Date 2020 6 15))
                           [cite "2019-06-01"; cite "2021-01-01";
                            cite "2020-06-15"]))%nat
      ∧ post
        = (after r + length (List.filter (created_on (Date 2020 6 15))
                               [cite "2019-06-01"; cite "2021-01-01";
                                cite "2020-06-15"]))%nat.
Proof.
  assert (0 < 36000000000000) as Hn by lia.
  split; [reflexivity|]. split; [exact Hn|]. split; [reflexivity|].
  exact (counters_differ_on_datetime iso_to_datetime
           [cite "2019-06-01"; cite "2021-01-01"; cite "2020-06-15"]
           (Date 2020 6 15) 36000000000000 eq_refl Hn eq_refl).
Defined.

Example datetime_target_counts :
  count_citations iso_to_datetime
    [cite "2019-06-01"; cite "2021-01-01"; cite "2020-06-15"]
    (PDatetime (Date 2020 6 15) 36000000000000)
  = Ok {| before := 2; after := 1 |}
  ∧ (run (process_citation_counts
            [cite "2019-06-01"; cite "2021-01-01"; cite "2020-06-15"]
            (PDatetime (Date 2020 6 15) 36000000000000))).1
    = Ok (NpInt 1, NpInt 2).
Proof. split; reflexivity. Qed.

(** ** Target dates that no timestamp holds *)

Example count_citations_out_of_range_target :
  count_citations iso_to_datetime [] (PDate (Date 1500 1 1))
  = Raise OutOfBoundsDatetime.
Proof. reflexivity. Qed.

Example last_day_with_a_midnight_timestamp :
  representable (PDate (Date 2262 4 11)) = true
  ∧ representable (PDate (Date 2262 4 12)) = false
  ∧ representable (PDate (Date 1677 9 22)) = true
  ∧ representable (PDate (Date 1677 9 21)) = false.
Proof. repeat split. Qed.
